(** * Accounting-app operator scripts: download server and APK uploader

  A shallow embedding of [download_android_project.py] and
  [upload_apk_to_github.py].

  Conventions of the embedding.
  - A Python [str] is a Rocq [string] holding the UTF-8 bytes of the
    text; [bytes] are [list byte].  For well-formed UTF-8 a substring
    test on the bytes agrees with the test on code points.
  - The file system is a finite map from paths to regular, readable
    files; it
    does not change while one handler call or one in-process step
    runs, only between requests and across an external command.
  - [print] only writes to standard output, which no statement below
    observes, so the calls to [print] and [print_header] are left out.
    [input] is kept: it shows a prompt and consumes a line of standard
    input (the text, without its newline), and raises [EOFError] when
    none is left.
  - An external command sees the environment and the files, may
    change the files, prints text that decodes in the encoding of the
    process, and does not read standard input.
  - The library code between the scripts and the outside is modelled
    as CPython 3.11 has it, where a statement depends on it:
    [http.server] rewrites a request target that starts with two
    slashes and sends no status line or header for an HTTP/0.9
    request; [os.environ] refuses a value with a NUL character. *)

From Stdlib Require Import ZArith Lia List Ascii String DecimalString.
From Stdlib Require Import Strings.Byte.
From stdpp Require Import base option list gmap strings.

Local Open Scope Z_scope.

(** ** Python built-ins shared by the two scripts *)
Module Py.

(** *** Exceptions and the state-and-exception monad *)

Inductive exn : Type :=
| FileNotFoundError
| EOFError
| ValueError
| SystemExit (code : Z).

Inductive outcome (A : Type) : Type :=
| Return (a : A)
| Raise (e : exn).
Arguments Return {A} a.
Arguments Raise {A} e.

(** A computation over a mutable state [S] that returns or raises. *)
Definition M (S A : Type) : Type := S -> outcome A * S.

Definition ret {S A} (a : A) : M S A := fun s => (Return a, s).

Definition bind {S A B} (c : M S A) (k : A -> M S B) : M S B :=
  fun s =>
    match c s with
    | (Return a, s') => k a s'
    | (Raise e, s') => (Raise e, s')
    end.

Definition raise {S A} (e : exn) : M S A := fun s => (Raise e, s).
Definition get {S} : M S S := fun s => (Return s, s).
Definition modify {S} (f : S -> S) : M S unit := fun s => (Return tt, f s).

#[global] Instance M_ret {S} : MRet (M S) := fun A => @ret S A.
#[global] Instance M_bind {S} : MBind (M S) := fun A B k c => bind c k.

(** *** Strings *)

Definition code (a : ascii) : N := N_of_ascii a.

(** [LF] and the double quote, which a literal cannot spell. *)
Definition LF : string := String (ascii_of_N 10) EmptyString.
Definition DQ : string := String (ascii_of_N 34) EmptyString.

(** Python's substring test [p in s]. *)
Fixpoint contains (p s : string) : bool :=
  String.prefix p s ||
  match s with
  | EmptyString => false
  | String _ s' => contains p s'
  end.

(** The code points for which [str.isspace] holds, by the length of
    their UTF-8 encoding: U+0009..U+000D, U+001C..U+0020; U+0085,
    U+00A0; U+1680, U+2000..U+200A, U+2028, U+2029, U+202F, U+205F,
    U+3000. *)
Definition space1 (a : ascii) : bool :=
  let n := code a in
  ((9 <=? n) && (n <=? 13) || (28 <=? n) && (n <=? 32))%N.

Definition space2 (a b : ascii) : bool :=
  ((code a =? 194) && ((code b =? 133) || (code b =? 160)))%N.

Definition space3 (a b c : ascii) : bool :=
  let '(x, y, z) := (code a, code b, code c) in
  ((x =? 225) && (y =? 154) && (z =? 128)
   || (x =? 226) && (y =? 128)
      && ((128 <=? z) && (z <=? 138) || (z =? 168) || (z =? 169) || (z =? 175))
   || (x =? 226) && (y =? 129) && (z =? 159)
   || (x =? 227) && (y =? 128) && (z =? 128))%N.

(** [str.lstrip()]: drop leading whitespace characters. *)
Fixpoint lstrip (s : string) : string :=
  match s with
  | String a s1 =>
      if space1 a then lstrip s1
      else match s1 with
           | String b s2 =>
               if space2 a b then lstrip s2
               else match s2 with
                    | String c s3 => if space3 a b c then lstrip s3 else s
                    | EmptyString => s
                    end
           | EmptyString => s
           end
  | EmptyString => s
  end.

(** [str.rstrip()]: drop the longest suffix made of whitespace only. *)
Fixpoint rstrip (s : string) : string :=
  match s with
  | String a s' =>
      match lstrip s with
      | EmptyString => EmptyString
      | String _ _ => String a (rstrip s')
      end
  | EmptyString => EmptyString
  end.

(** [str.strip()]. *)
Definition strip (s : string) : string := rstrip (lstrip s).

Definition lower_char (a : ascii) : ascii :=
  let n := code a in
  if ((65 <=? n) && (n <=? 90))%N then ascii_of_N (n + 32) else a.

(** [str.lower()] on the ASCII letters.  The scripts only compare the
    result with ['y'], and ['Y'] is the one other code point that
    [str.lower] sends to ['y'], so the comparison is modelled exactly. *)
Fixpoint lower (s : string) : string :=
  match s with
  | String a s' => String (lower_char a) (lower s')
  | EmptyString => EmptyString
  end.

(** The NUL character, which a literal cannot spell either. *)
Definition NUL : string := String (ascii_of_N 0) EmptyString.

(** Whether a [str] has a NUL character in it. *)
Definition has_nul (s : string) : bool := contains NUL s.

(** Truth value of a [str]: non-empty. *)
Definition nonempty (s : string) : bool :=
  match s with EmptyString => false | String _ _ => true end.

(** Truth value of an [Optional[str]]: neither [None] nor empty. *)
Definition truthy (o : option string) : bool :=
  match o with Some s => nonempty s | None => false end.

(** The [str] behind an [Optional[str]] already known not to be [None]. *)
Definition the (o : option string) : string := default EmptyString o.

(** [str(n)] for a non-negative integer. *)
Definition decimal (n : Z) : string :=
  NilZero.string_of_uint (N.to_uint (Z.to_N n)).

(** [str.encode()]: the UTF-8 bytes. *)
Definition encode (s : string) : list byte := list_byte_of_string s.

(** *** Files *)

Record file : Type := { contents : list byte; mtime : Z }.

Abbreviation filesystem := (gmap string file).

(** [os.path.exists]. *)
Definition path_exists (fs : filesystem) (p : string) : bool :=
  bool_decide (is_Some (fs !! p)).

(** [os.path.getsize]: raises when the path does not exist. *)
Definition getsize {S} (fs : filesystem) (p : string) : M S Z :=
  match fs !! p with
  | Some f => ret (Z.of_nat (length (contents f)))
  | None => raise FileNotFoundError
  end.

(** [open(p, "rb").read()], for the regular, readable files that the
    file system of this model holds. *)
Definition read_bytes {S} (fs : filesystem) (p : string) : M S (list byte) :=
  match fs !! p with
  | Some f => ret (contents f)
  | None => raise FileNotFoundError
  end.

End Py.


(** ** [download_android_project.py] *)
Module DownloadServer.
Import Py.

Definition PORT : Z := 8000.
Definition ZIP_FILE : string := "accounting-android-project.zip".

(** What [BaseHTTPRequestHandler] puts on the connection.  The
    [Server] and [Date] headers that [send_response] adds on its own
    are left out. *)
Inductive wire : Type :=
| StatusLine (status : Z)
| HeaderLine (name value : string)
| BlankLine
| Payload (data : list byte).

(** [request_version]: a request line of two words, "GET /path", is
    an HTTP/0.9 request; one with a version as third word is an
    HTTP/1.0 or HTTP/1.1 request. *)
Inductive version : Type := HTTP09 | HTTP1.

(** The handler object: headers are buffered until [end_headers]
    flushes them; [wfile] is the unbuffered socket writer. *)
Record handler : Type := {
  request_version : version;
  headers_buffer : list wire;
  wfile : list wire
}.

Definition fresh_for (v : version) : handler :=
  {| request_version := v; headers_buffer := []; wfile := [] |}.

(** The handler of a request that names its version. *)
Definition fresh : handler := fresh_for HTTP1.

(** [send_response], [send_header] and [end_headers] do nothing for an
    HTTP/0.9 request. *)
Definition send_response (status : Z) : M handler unit :=
  modify (fun h =>
            match request_version h with
            | HTTP09 => h
            | HTTP1 =>
                {| request_version := request_version h;
                   headers_buffer := headers_buffer h ++ [StatusLine status];
                   wfile := wfile h |}
            end).

Definition send_header (name value : string) : M handler unit :=
  modify (fun h =>
            match request_version h with
            | HTTP09 => h
            | HTTP1 =>
                {| request_version := request_version h;
                   headers_buffer := headers_buffer h ++ [HeaderLine name value];
                   wfile := wfile h |}
            end).

Definition end_headers : M handler unit :=
  modify (fun h =>
            match request_version h with
            | HTTP09 => h
            | HTTP1 =>
                {| request_version := request_version h;
                   headers_buffer := [];
                   wfile := wfile h ++ headers_buffer h ++ [BlankLine] |}
            end).

Definition wfile_write (data : list byte) : M handler unit :=
  modify (fun h => {| request_version := request_version h;
                      headers_buffer := headers_buffer h;
                      wfile := wfile h ++ [Payload data] |}).

(** [str.lstrip('/')]. *)
Fixpoint lstrip_slashes (s : string) : string :=
  match s with
  | String a s' => if (code a =? 47)%N then lstrip_slashes s' else s
  | EmptyString => s
  end.

(** What [parse_request] makes of the request target before [do_GET]
    sees it as [self.path]: a leading run of two or more slashes is
    reduced to one. *)
Definition parse_path (target : string) : string :=
  if String.prefix "//" target then "/" +:+ lstrip_slashes target
  else target.

(** *** [urllib.parse.quote] with its default [safe="/"] *)

Definition unreserved (a : ascii) : bool :=
  let n := code a in
  ((65 <=? n) && (n <=? 90) || (97 <=? n) && (n <=? 122)
   || (48 <=? n) && (n <=? 57)
   || (n =? 95) || (n =? 46) || (n =? 45) || (n =? 126))%N.

Definition hex_digit (n : N) : ascii :=
  ascii_of_N (if (n <? 10)%N then 48 + n else 55 + n)%N.

Fixpoint quote (s : string) : string :=
  match s with
  | String a s' =>
      if unreserved a || (code a =? 47)%N then String a (quote s')
      else String "%" (String (hex_digit (code a / 16))
                         (String (hex_digit (code a mod 16)) (quote s')))
  | EmptyString => EmptyString
  end.

(** *** The size field: [f"{size / 1024:.1f}"] *)

(** The integer nearest to [num / den], ties to the even one. *)
Definition round_half_even (num den : Z) : Z :=
  let q := num / den in
  let r := num mod den in
  if 2 * r <? den then q
  else if den <? 2 * r then q + 1
  else if Z.even q then q else q + 1.

(** The double nearest to a non-negative integer (53-bit significand).
    Dividing it by 1024 only changes the exponent, so [size / 1024] is
    exactly [to_double size / 1024]. *)
Definition to_double (n : Z) : Z :=
  if n <? 2 ^ 53 then n
  else let e := Z.log2 n - 52 in round_half_even n (2 ^ e) * 2 ^ e.

(** The number of tenths of a kilobyte that [.1f] prints. *)
Definition tenths_of_kilobyte (size : Z) : Z :=
  round_half_even (10 * to_double size) 1024.

Definition format_kilobytes (size : Z) : string :=
  let t := tenths_of_kilobyte size in
  decimal (t / 10) +:+ "." +:+ decimal (t mod 10).

(** The lines of the page template up to the size field. *)
Definition page_head : list string :=
  [ EmptyString;
    "            <!DOCTYPE html>";
    "            <html>";
    "            <head>";
    "                <meta charset=" +:+ DQ +:+ "UTF-8" +:+ DQ +:+ ">";
    "                <meta name=" +:+ DQ +:+ "viewport" +:+ DQ +:+ " content=" +:+ DQ +:+ "width=device-width, initial-scale=1.0" +:+ DQ +:+ ">";
    "                <title>دانلود پروژه اندروید</title>";
    "                <style>";
    "                    body {";
    "                        font-family: Arial, sans-serif;";
    "                        background-color: #121212;";
    "                        color: #ffffff;";
    "                        display: flex;";
    "                        justify-content: center;";
    "                        align-items: center;";
    "                        height: 100vh;";
    "                        margin: 0;";
    "                        direction: rtl;";
    "                    }";
    "                    .container {";
    "                        text-align: center;";
    "                        background-color: #1e1e1e;";
    "                        padding: 2rem;";
    "                        border-radius: 8px;";
    "                        box-shadow: 0 4px 6px rgba(0, 0, 0, 0.1);";
    "                        max-width: 500px;";
    "                        width: 100%;";
    "                    }";
    "                    h1 {";
    "                        color: #0eead9;";
    "                        margin-bottom: 1rem;";
    "                    }";
    "                    p {";
    "                        margin-bottom: 1.5rem;";
    "                        font-size: 1.1rem;";
    "                        line-height: 1.5;";
    "                    }";
    "                    .download-btn {";
    "                        background-color: #0eead9;";
    "                        color: #121212;";
    "                        border: none;";
    "                        padding: 0.8rem 1.5rem;";
    "                        font-size: 1.2rem;";
    "                        font-weight: bold;";
    "                        border-radius: 4px;";
    "                        cursor: pointer;";
    "                        text-decoration: none;";
    "                        display: inline-block;";
    "                        transition: background-color 0.3s;";
    "                    }";
    "                    .download-btn:hover {";
    "                        background-color: #0ac2b2;";
    "                    }";
    "                    .file-info {";
    "                        margin-top: 1rem;";
    "                        font-size: 0.9rem;";
    "                        color: #bbbbbb;";
    "                    }";
    "                </style>";
    "            </head>";
    "            <body>";
    "                <div class=" +:+ DQ +:+ "container" +:+ DQ +:+ ">";
    "                    <h1>دانلود پروژه اندروید اپلیکیشن حسابداری</h1>";
    "                    <p>";
    "                        فایل پروژه اندروید برای ساخت APK آماده دانلود است. پس از دانلود، فایل را استخراج کرده و طبق راهنمای";
    "                        <code>ANDROID_BUILD_INSTRUCTIONS.md</code> برای ساخت فایل APK اقدام کنید.";
    "                    </p>";
    "                    <a href=" +:+ DQ +:+ "/download" +:+ DQ +:+ " class=" +:+ DQ +:+ "download-btn" +:+ DQ +:+ ">دانلود فایل پروژه اندروید</a>";
    "                    <p class=" +:+ DQ +:+ "file-info" +:+ DQ +:+ ">";
    "                        حجم فایل: " ].

(** The lines of the page template after the size field. *)
Definition page_tail : list string :=
  [ " کیلوبایت";
    "                    </p>";
    "                </div>";
    "            </body>";
    "            </html>";
    "            " ].

(** The f-string of [do_GET], with the size field filled in. *)
Definition html (size : Z) : string :=
  String.concat LF page_head +:+ format_kilobytes size
    +:+ String.concat LF page_tail.

(** *** The request handler *)

Definition do_GET (fs : filesystem) (path : string) : M handler unit :=
  if String.eqb path "/" then
    send_response 200;;
    send_header "Content-type" "text/html";;
    end_headers;;
    size ← getsize fs ZIP_FILE;
    wfile_write (encode (html size))
  else if String.eqb path "/download" then
    if path_exists fs ZIP_FILE then
      send_response 200;;
      send_header "Content-type" "application/zip";;
      send_header "Content-Disposition"
                  ("attachment; filename=" +:+ quote ZIP_FILE);;
      end_headers;;
      data ← read_bytes fs ZIP_FILE;
      wfile_write data
    else
      send_response 404;;
      send_header "Content-type" "text/html";;
      end_headers;;
      wfile_write (encode "404 - File not found")
  else
    send_response 404;;
    send_header "Content-type" "text/html";;
    end_headers;;
    wfile_write (encode "404 - Page not found").

(** A GET request whose request line names its version (HTTP/1.0 or
    HTTP/1.1): the request target as sent, and the file system as it is
    when the request is handled. *)
Record request : Type := { disk : filesystem; path : string }.

(** One request on a new handler object: whether [do_GET] returned or
    raised, and what reached the connection. *)
Definition handle (r : request) : outcome unit * list wire :=
  let '(o, h) := do_GET (disk r) (parse_path (path r)) fresh in (o, wfile h).

(** The same for a request of either version. *)
Definition handle_as (v : version) (r : request) : outcome unit * list wire :=
  let '(o, h) := do_GET (disk r) (parse_path (path r)) (fresh_for v) in
  (o, wfile h).

(** [HTTPServer.serve_forever]: requests are handled one after the
    other; an exception in a handler ends that request only. *)
Definition serve_forever (rs : list request) : list (outcome unit * list wire) :=
  map handle rs.

(** The script body: the one existence check, then the server. *)
Definition main (fs0 : filesystem) (rs : list request)
  : outcome (list (outcome unit * list wire)) :=
  if negb (path_exists fs0 ZIP_FILE) then Raise (SystemExit 1)
  else Return (serve_forever rs).

(** *** Reading a response off the connection *)

Definition status_of (w : list wire) : option Z :=
  match w with
  | StatusLine c :: _ => Some c
  | _ => None
  end.

Fixpoint header_of (name : string) (w : list wire) : option string :=
  match w with
  | HeaderLine n v :: w' => if String.eqb n name then Some v else header_of name w'
  | StatusLine _ :: w' => header_of name w'
  | _ => None
  end.

Fixpoint body_of (w : list wire) : list byte :=
  match w with
  | Payload d :: w' => d ++ body_of w'
  | _ :: w' => body_of w'
  | [] => []
  end.

End DownloadServer.

(** ** [upload_apk_to_github.py] *)
Module Uploader.
Import Py.

(** The calls to [input], in the order of the source text. *)
Inductive prompt : Type :=
| AskToken        (* ensure_github_token: the token *)
| AskSaveToken    (* ensure_github_token: save it permanently? *)
| AskRepo         (* ensure_github_repo: the repository name *)
| AskSaveRepo     (* ensure_github_repo: save it permanently? *)
| AskEnter        (* either: press Enter to continue *)
| AskRebuild.     (* create_apk: rebuild the APK? *)

(** What the run does that the outside can see: a prompt shown, or a
    shell command started with the environment it inherits. *)
Inductive event : Type :=
| Prompted (p : prompt)
| Ran (command : string) (env : gmap string string).

(** The process and its surroundings. *)
Record world : Type := {
  environ : gmap string string;   (* os.environ *)
  files : filesystem;
  stdin : list string;            (* lines the operator has yet to give *)
  journal : list event
}.

(** What [subprocess.run] gets back from the child, and the files the
    child leaves behind. *)
Record completed : Type := {
  returncode : Z;
  stdout : string;
  stderr : string;
  files_after : filesystem
}.

Definition log (e : event) (w : world) : world :=
  {| environ := environ w; files := files w; stdin := stdin w;
     journal := journal w ++ [e] |}.

(** [os.environ.get(k)]. *)
Definition os_environ_get (k : string) : M world (option string) :=
  fun w => (Return (environ w !! k), w).

(** [os.environ[k] = v]: a value with a NUL character is refused
    with [ValueError] and nothing is stored. *)
Definition os_environ_set (k v : string) : M world unit :=
  fun w =>
    if has_nul v then (Raise ValueError, w)
    else (Return tt,
          {| environ := <[k := v]> (environ w); files := files w;
             stdin := stdin w; journal := journal w |}).

(** [input(prompt)]: the prompt is shown, then a line is read. *)
Definition input (p : prompt) : M world string :=
  fun w =>
    match stdin w with
    | line :: rest =>
        (Return line,
         {| environ := environ w; files := files w; stdin := rest;
            journal := journal w ++ [Prompted p] |})
    | [] => (Raise EOFError, log (Prompted p) w)
    end.

(** [os.path.join] of two components on a POSIX system. *)
Definition os_path_join (a b : string) : string :=
  if String.prefix "/" b then b
  else if negb (nonempty a) then b
  else if String.eqb (String.substring (String.length a - 1) 1 a) "/" then a +:+ b
  else a +:+ "/" +:+ b.

(** [os.path.getmtime]. *)
Definition getmtime (fs : filesystem) (p : string) : M world Z :=
  match fs !! p with
  | Some f => mret (mtime f)
  | None => raise FileNotFoundError
  end.

Definition GITHUB_TOKEN : string := "GITHUB_TOKEN".
Definition GITHUB_REPO : string := "GITHUB_REPO".
Definition RELEASE_VERSION : string := "RELEASE_VERSION".
Definition PLACEHOLDER_REPO : string := "username/repo".
Definition BUILD_COMMAND : string := "python create_apk.py".
Definition SUCCESS_MARKER : string := "آپلود با موفقیت انجام شد".

Section Host.

(** The shell: what a command does, given the environment and the
    files it finds. *)
Variable shell : string -> gmap string string -> filesystem -> completed.

(** [datetime.now().strftime("v%Y.%m.%d-%H%M%S")] at the upload. *)
Variable release_label : string.

(** [execute_command]: [subprocess.run] with [shell=True],
    [check=True], [text=True], [capture_output=True], for a command
    whose output is text in the encoding of the process and which
    leaves standard input alone. *)
Definition execute_command (command : string) : M world (option string) :=
  fun w =>
    let r := shell command (environ w) (files w) in
    let w' := {| environ := environ w; files := files_after r;
                 stdin := stdin w;
                 journal := journal w ++ [Ran command (environ w)] |} in
    if returncode r =? 0 then (Return (Some (strip (stdout r))), w')
    else (Return None, w').

(** The offer to store a value permanently, which both [ensure_]
    functions spell out in the same words after the value is set:
    nothing is stored, the operator is told how and asked to press
    Enter. *)
Definition offer_to_save (p : prompt) : M world unit :=
  answer ← input p;
  let save := lower (strip answer) in
  if String.eqb save "y" then _ ← input AskEnter; mret tt
  else mret tt.

Definition ensure_github_token : M world bool :=
  current ← os_environ_get GITHUB_TOKEN;
  if negb (truthy current) then
    line ← input AskToken;
    let token := strip line in
    if nonempty token then
      os_environ_set GITHUB_TOKEN token;;
      offer_to_save AskSaveToken;;
      mret true
    else mret false
  else mret true.

Definition ensure_github_repo : M world bool :=
  current ← os_environ_get GITHUB_REPO;
  if negb (truthy current) || bool_decide (current = Some PLACEHOLDER_REPO) then
    line ← input AskRepo;
    let repo := strip line in
    if nonempty repo && contains "/" repo then
      os_environ_set GITHUB_REPO repo;;
      offer_to_save AskSaveRepo;;
      mret true
    else mret false
  else mret true.

Definition apk_path : string := os_path_join "bin" "accountingapp-debug.apk".

Definition create_apk : M world (option string) :=
  let build : M world (option string) :=
    result ← execute_command BUILD_COMMAND;
    w ← get;
    if truthy result && path_exists (files w) apk_path
    then mret (Some apk_path)
    else mret None in
  w ← get;
  if path_exists (files w) apk_path then
    _ ← getmtime (files w) apk_path;
    _ ← getsize (files w) apk_path;
    answer ← input AskRebuild;
    let rebuild := lower (strip answer) in
    if negb (String.eqb rebuild "y") then mret (Some apk_path)
    else build
  else build.

Definition upload_command (path : string) : string :=
  "python github_upload.py " +:+ path.

Definition upload_to_github (path : string) : M world bool :=
  w ← get;
  if negb (path_exists (files w) path) then mret false
  else
    have_token ← ensure_github_token;
    have_repo ← (if have_token then ensure_github_repo else mret false);
    if negb have_token || negb have_repo then mret false
    else
      w ← get;
      _ ← getsize (files w) path;
      _ ← os_environ_get GITHUB_REPO;
      os_environ_set RELEASE_VERSION release_label;;
      result ← execute_command (upload_command path);
      if truthy result && contains SUCCESS_MARKER (the result)
      then mret true
      else mret false.

Definition main : M world unit :=
  path ← create_apk;
  if negb (truthy path) then mret tt
  else
    upload_result ← upload_to_github (the path);
    if upload_result : bool then
      _ ← os_environ_get RELEASE_VERSION;
      _ ← os_environ_get GITHUB_REPO;
      mret tt
    else mret tt.

End Host.

End Uploader.

(** ** Vocabulary for the statements about the uploader *)
Module Spec.
Import Py Uploader.

(** The operator answers the offer to save a value: a line for the
    question and, after a yes, a line for the Enter prompt. *)
Definition answers_offer (lines : list string) : bool :=
  match lines with
  | answer :: rest =>
      if String.eqb (lower (strip answer)) "y" then bool_decide (rest <> [])
      else true
  | [] => false
  end.

(** The world once a line has been read at prompt [p]. *)
Definition prompted (p : prompt) (rest : list string) (w : world) : world :=
  {| environ := environ w; files := files w; stdin := rest;
     journal := journal w ++ [Prompted p] |}.

(** The world once [os.environ[k] = v] has run. *)
Definition with_env (k v : string) (w : world) : world :=
  {| environ := <[k := v]> (environ w); files := files w;
     stdin := stdin w; journal := journal w |}.

(** The world without the variable [k]. *)
Definition without_env (k : string) (w : world) : world :=
  {| environ := delete k (environ w); files := files w;
     stdin := stdin w; journal := journal w |}.

(** Two worlds in which the operator has seen and has yet to type the
    same things. *)
Definition alike (w1 w2 : world) : Prop :=
  stdin w1 = stdin w2 /\ journal w1 = journal w2.

(** A command in the journal was started with [k] set to [v]. *)
Definition sees (k v : string) (e : event) : Prop :=
  match e with
  | Ran _ env => env !! k = Some v
  | Prompted _ => True
  end.

(** From [w] to [w'] the variable [k] ends up holding [v] and every
    command started in between inherited that value. *)
Definition observed (k v : string) (w w' : world) : Prop :=
  environ w' !! k = Some v
  /\ exists evs, journal w' = journal w ++ evs /\ Forall (sees k v) evs.

(** Whatever state it starts in, a computation ends in a state
    related to it by [R]. *)
Definition framed {A} (R : world -> world -> Prop) (c : M world A) : Prop :=
  forall w, R w (snd (c w)).

(** The files are as they were. *)
Definition same_files (w w' : world) : Prop := files w' = files w.

(** If [k] held [v], it still does, and was seen to. *)
Definition settled (k v : string) (w w' : world) : Prop :=
  environ w !! k = Some v -> observed k v w w'.

(** [create_apk] gets to the build from [w], in world [w1]: the
    artifact is absent, or the operator asked for a rebuild. *)
Definition rebuild_start (w w1 : world) : Prop :=
  (path_exists (files w) apk_path = false /\ w1 = w)
  \/ (path_exists (files w) apk_path = true
      /\ exists answer rest,
          stdin w = answer :: rest
          /\ lower (strip answer) = "y"
          /\ w1 = prompted AskRebuild rest w).

(** The world once a command has run and left [r] behind. *)
Definition ran (command : string) (r : completed) (w : world) : world :=
  {| environ := environ w; files := files_after r; stdin := stdin w;
     journal := journal w ++ [Ran command (environ w)] |}.

(** What [create_apk] asks of a build, as the code has it: exit code
    zero, some output besides whitespace, and the artifact in place. *)
Definition build_signal (r : completed) : bool :=
  (returncode r =? 0) && nonempty (strip (stdout r))
  && path_exists (files_after r) apk_path.

(** [upload_to_github] gets to the upload command from [w], in world
    [w1]: the file is there, both settings are in place and the
    release label is written. *)
Definition upload_ready (label path : string) (w w1 : world) : Prop :=
  path_exists (files w) path = true
  /\ exists wa wb,
      ensure_github_token w = (Return true, wa)
      /\ ensure_github_repo wa = (Return true, wb)
      /\ os_environ_set RELEASE_VERSION label wb = (Return tt, w1).

(** The success signal of C4, in the words of the claim: the command
    did not fail, its output is not empty and holds the marker. *)
Definition upload_signal (r : completed) : bool :=
  (returncode r =? 0) && nonempty (stdout r)
  && contains SUCCESS_MARKER (stdout r).

(** [ensure_github_repo] asks: the variable is unset, empty, or the
    placeholder. *)
Definition repo_unsettled (w : world) : Prop :=
  truthy (environ w !! GITHUB_REPO) = false
  \/ environ w !! GITHUB_REPO = Some PLACEHOLDER_REPO.

End Spec.

(** ** Bytes of the whitespace encodings

  Auxiliary tests used to relate a stripped string to the original. *)
Module Blank.
Import Py.

(** First byte of the encoding of a whitespace character. *)
Definition ws_lead (a : ascii) : bool :=
  let n := code a in
  (space1 a || (n =? 194) || (225 <=? n) && (n <=? 227))%N.

(** Any byte of the encoding of a whitespace character. *)
Definition ws_byte (a : ascii) : bool :=
  let n := code a in
  (ws_lead a || (128 <=? n) && (n <=? 138) || (n =? 154) || (n =? 159)
   || (n =? 160) || (n =? 168) || (n =? 169) || (n =? 175))%N.

Fixpoint all_ws_bytes (s : string) : bool :=
  match s with
  | String a s' => ws_byte a && all_ws_bytes s'
  | EmptyString => true
  end.

Definition starts_blank (s : string) : bool :=
  match s with
  | String a _ => ws_lead a
  | EmptyString => true
  end.

(** A pattern no occurrence of which can run into trailing
    whitespace: every suffix of two bytes or more has a byte outside
    the whitespace encodings, and the last byte starts none. *)
Fixpoint guarded (p : string) : bool :=
  match p with
  | EmptyString => true
  | String a EmptyString => negb (ws_lead a)
  | String a p' => negb (all_ws_bytes p) && guarded p'
  end.

(** A pattern that cannot start inside leading whitespace. *)
Definition anchored (p : string) : bool :=
  match p with
  | String a _ => negb (ws_byte a)
  | EmptyString => false
  end.

End Blank.

(** ** Concrete disks, worlds and shells for the examples *)
Module Samples.
Import Py.

(** An archive of [n] zero bytes. *)
Definition archive (n : nat) : file :=
  {| contents := repeat x00 n; mtime := 0 |}.

Definition disk_with (f : file) : filesystem :=
  {[ DownloadServer.ZIP_FILE := f ]}.

(** A world with nothing in the environment, no files, and the given
    lines waiting on standard input. *)
Definition bare (lines : list string) : Uploader.world :=
  {| Uploader.environ := ∅; Uploader.files := ∅;
     Uploader.stdin := lines; Uploader.journal := [] |}.

(** The same with a built artifact in place. *)
Definition built (lines : list string) : Uploader.world :=
  {| Uploader.environ := ∅;
     Uploader.files := {[ Uploader.apk_path := archive 4096 ]};
     Uploader.stdin := lines; Uploader.journal := [] |}.

(** A build or upload script that leaves the artifact in place, with a
    chosen exit code and output. *)
Definition script (status : Z) (output : string)
  : string -> gmap string string -> filesystem -> Uploader.completed :=
  fun _ _ fs =>
    {| Uploader.returncode := status; Uploader.stdout := output;
       Uploader.stderr := EmptyString;
       Uploader.files_after := <[ Uploader.apk_path := archive 4096 ]> fs |}.

End Samples.

(** ** The rest of [download_android_project.py]: starting the server *)
Module Launch.
Import Py DownloadServer.

(** What a run of the script does, in order. *)
Inductive server_event : Type :=
| Printed (line : string)
| BrowserOpened (url : string)
| Answered (answer : outcome unit * list wire)
| ServerClosed.

(** [f"http://localhost:{PORT}"]. *)
Definition address : string := "http://localhost:" +:+ decimal PORT.

(** ['REPL_ID' not in os.environ]: the key counts, not its value. *)
Definition outside_replit (env : gmap string string) : bool :=
  negb (bool_decide (is_Some (env !! "REPL_ID"))).

(** [run_server], for a run in which the requests [rs] arrive and then
    Ctrl+C is pressed.  Binding the port is taken to succeed. *)
Definition run_server (env : gmap string string) (rs : list request)
  : list server_event :=
  [Printed ("Starting download server at " +:+ address);
   Printed "Press Ctrl+C to stop the server."]
  ++ (if outside_replit env then [BrowserOpened address] else [])
  ++ map Answered (serve_forever rs)
  ++ [Printed (LF +:+ "Server stopped."); ServerClosed].

(** The [__main__] block: what happens, and the exit code when the
    script calls [sys.exit]. *)
Definition script (env : gmap string string) (fs0 : filesystem)
           (rs : list request) : list server_event * option Z :=
  if negb (path_exists fs0 ZIP_FILE)
  then ([Printed ("Error: " +:+ ZIP_FILE +:+ " does not exist.")], Some 1)
  else (run_server env rs, None).

(** The answers among the events. *)
Fixpoint answers (evs : list server_event) : list (outcome unit * list wire) :=
  match evs with
  | Answered a :: evs' => a :: answers evs'
  | _ :: evs' => answers evs'
  | [] => []
  end.

(** The browser launches among the events. *)
Fixpoint launches (evs : list server_event) : list string :=
  match evs with
  | BrowserOpened u :: evs' => u :: launches evs'
  | _ :: evs' => launches evs'
  | [] => []
  end.

End Launch.

(** ** [print_header] of [upload_apk_to_github.py] *)
Module Console.
Import Py.

(** UTF-8 continuation bytes do not start a character. *)
Definition continuation (a : ascii) : bool :=
  ((128 <=? code a) && (code a <=? 191))%N.

(** [len(s)]: the number of characters. *)
Fixpoint len (s : string) : nat :=
  match s with
  | String a s' => (if continuation a then 0 else 1) + len s'
  | EmptyString => 0
  end%nat.

(** [c * n] for a one-character string [c]. *)
Fixpoint times (c : ascii) (n : nat) : string :=
  match n with
  | O => EmptyString
  | S n' => String c (times c n')
  end.

(** [str.center(width)]: when the margin is odd, the extra space goes
    to the left if the width is odd too, to the right otherwise. *)
Definition center (s : string) (width : nat) : string :=
  let n := len s in
  if (width <=? n)%nat then s
  else
    let marg := (width - n)%nat in
    let left := (marg / 2 + (if Nat.odd marg && Nat.odd width then 1 else 0))%nat in
    times " " left +:+ s +:+ times " " (marg - left).

(** [print_header]: the text of its three [print] calls, each without
    the newline that [print] adds. *)
Definition print_header (title : string) : list string :=
  let width := 60%nat in
  [ LF +:+ times "=" width; center title width; times "=" width +:+ LF ].

End Console.

(** ** More vocabulary *)
Module Conduct.
Import Py Uploader Spec.

Definition is_digit (a : ascii) : bool :=
  ((48 <=? code a) && (code a <=? 57))%N.

Fixpoint all_digits (s : string) : bool :=
  match s with
  | String a s' => is_digit a && all_digits s'
  | EmptyString => true
  end.

(** The commands started, in order. *)
Fixpoint commands (evs : list event) : list string :=
  match evs with
  | Ran c _ :: evs' => c :: commands evs'
  | Prompted _ :: evs' => commands evs'
  | [] => []
  end.

(** The prompts shown, in order. *)
Fixpoint prompts (evs : list event) : list prompt :=
  match evs with
  | Prompted p :: evs' => p :: prompts evs'
  | Ran _ _ :: evs' => prompts evs'
  | [] => []
  end.

(** From [w] to [w'] nothing happened but prompts and writes to the
    variable [k]: same files, same other variables, no command. *)
Definition only_asked (k : string) (w w' : world) : Prop :=
  files w' = files w
  /\ (forall k', k' <> k -> environ w' !! k' = environ w !! k')
  /\ exists ps, journal w' = journal w ++ map Prompted ps
       /\ exists used, stdin w = used ++ stdin w'
            /\ (length used <= length ps)%nat.

(** From [w] to [w'] the environment was left alone. *)
Definition same_environ (w w' : world) : Prop := environ w' = environ w.

(** From [w] to [w'] at most [n] prompts were shown, and nothing
    else is on record. *)
Definition asked_within (n : nat) (w w' : world) : Prop :=
  exists ps, journal w' = journal w ++ map Prompted ps
    /\ (length ps <= n)%nat.

(** From [w] to [w'] at most [n] lines of input were read. *)
Definition read_within (n : nat) (w w' : world) : Prop :=
  (length (stdin w) <= length (stdin w') + n)%nat.

(** What one of the [ensure_] functions, for the variable [k], has
    done when it ends in [w'] with outcome [o]. *)
Definition ensured (k : string) (w : world) (o : outcome bool) (w' : world)
  : Prop :=
  only_asked k w w'
  /\ asked_within 3 w w'
  /\ read_within 3 w w'
  /\ (o = Return true -> truthy (environ w' !! k) = true)
  /\ (o = Return false ->
      environ w' = environ w
      /\ exists line rest, stdin w = line :: rest /\ stdin w' = rest)
  /\ (o = Raise ValueError -> environ w' = environ w).

End Conduct.

Section StringFacts.
Import Py Blank.

Example strip_ascii : strip ("  ghp_1 " +:+ LF) = "ghp_1".
Proof. reflexivity. Qed.

(** U+00A0 and U+3000 are whitespace to [str.strip], U+200B is not. *)
Example strip_unicode :
  strip (String (ascii_of_N 194) (String (ascii_of_N 160)
           ("x" +:+ String (ascii_of_N 227) (String (ascii_of_N 128)
                      (String (ascii_of_N 128) EmptyString))))) = "x"
  /\ strip (String (ascii_of_N 226) (String (ascii_of_N 128)
              (String (ascii_of_N 139) EmptyString)))
     <> EmptyString.
Proof. split; [reflexivity | discriminate]. Qed.

Example lower_yes : lower (strip " Y ") = "y" /\ lower "No" = "no".
Proof. split; reflexivity. Qed.

Example contains_samples :
  contains "/" "me/app" = true /\ contains "/" "myrepo" = false
  /\ contains EmptyString EmptyString = true /\ contains "ab" "b" = false.
Proof. repeat split. Qed.

Lemma app_nil (t : string) : EmptyString +:+ t = t.
Proof. reflexivity. Qed.

Lemma app_cons a (s t : string) : String a s +:+ t = String a (s +:+ t).
Proof. reflexivity. Qed.

Lemma prefix_nil (s : string) : String.prefix EmptyString s = true.
Proof. by destruct s. Qed.

Lemma prefix_cons a p b s :
  String.prefix (String a p) (String b s)
  = if ascii_dec a b then String.prefix p s else false.
Proof. reflexivity. Qed.

Lemma prefix_app (p v : string) : String.prefix p (p +:+ v) = true.
Proof.
  induction p as [|a p IH]; [apply prefix_nil|].
  rewrite app_cons, prefix_cons. by destruct (ascii_dec a a).
Qed.

Lemma contains_cons p a s :
  contains p (String a s) = String.prefix p (String a s) || contains p s.
Proof. reflexivity. Qed.

Lemma contains_unfold p s :
  contains p s
  = String.prefix p s
    || match s with EmptyString => false | String _ s' => contains p s' end.
Proof. by destruct s. Qed.

(** An occurrence anywhere is found. *)
Lemma contains_middle (u p v : string) : contains p (u +:+ p +:+ v) = true.
Proof.
  induction u as [|a u IH].
  - rewrite app_nil, contains_unfold. by rewrite prefix_app.
  - rewrite app_cons, contains_cons, IH. apply orb_true_r.
Qed.

Lemma space1_lead a : space1 a = true -> ws_lead a = true.
Proof. unfold ws_lead. intros ->. reflexivity. Qed.

Lemma lead_byte a : ws_lead a = true -> ws_byte a = true.
Proof. unfold ws_byte. intros ->. reflexivity. Qed.

Ltac bools :=
  repeat rewrite ?andb_true_iff, ?orb_true_iff, ?N.eqb_eq, ?N.leb_le in *.

Lemma space2_bytes a b :
  space2 a b = true -> ws_lead a = true /\ ws_byte b = true.
Proof.
  unfold space2, ws_byte, ws_lead, space1. generalize (code a) (code b).
  intros x y H. bools. lia.
Qed.

Lemma space3_bytes a b c :
  space3 a b c = true ->
  ws_lead a = true /\ ws_byte b = true /\ ws_byte c = true.
Proof.
  unfold space3, ws_byte, ws_lead, space1.
  generalize (code a) (code b) (code c).
  intros x y z H. bools. lia.
Qed.

(** [lstrip] removes a prefix made of whitespace bytes. *)
Lemma lstrip_split s :
  exists pre, s = pre +:+ lstrip s /\ all_ws_bytes pre = true.
Proof.
  remember (String.length s) as n eqn:Hn.
  revert s Hn. induction n as [n IH] using lt_wf_ind. intros s ->.
  destruct s as [|a s1]; [by exists EmptyString|].
  cbn [lstrip]. destruct (space1 a) eqn:E1.
  { destruct (IH (String.length s1) ltac:(simpl; lia) s1 eq_refl) as (pre & Hs & Hpre).
    exists (String a pre). rewrite app_cons, <- Hs. split; [done|].
    cbn [all_ws_bytes]. by rewrite (lead_byte _ (space1_lead _ E1)). }
  destruct s1 as [|b s2]; [by exists EmptyString|].
  destruct (space2 a b) eqn:E2.
  { destruct (IH (String.length s2) ltac:(simpl; lia) s2 eq_refl) as (pre & Hs & Hpre).
    destruct (space2_bytes _ _ E2) as [Ha Hb].
    exists (String a (String b pre)). rewrite !app_cons, <- Hs. split; [done|].
    cbn [all_ws_bytes]. by rewrite (lead_byte _ Ha), Hb. }
  destruct s2 as [|c s3]; [by exists EmptyString|].
  destruct (space3 a b c) eqn:E3; [|by exists EmptyString].
  destruct (IH (String.length s3) ltac:(simpl; lia) s3 eq_refl) as (pre & Hs & Hpre).
  destruct (space3_bytes _ _ _ E3) as (Ha & Hb & Hc).
  exists (String a (String b (String c pre))). rewrite !app_cons, <- Hs.
  split; [done|]. cbn [all_ws_bytes]. by rewrite (lead_byte _ Ha), Hb, Hc.
Qed.

(** A string that [lstrip] empties is whitespace throughout. *)
Lemma blank_bytes s :
  lstrip s = EmptyString -> all_ws_bytes s = true /\ starts_blank s = true.
Proof.
  remember (String.length s) as n eqn:Hn.
  revert s Hn. induction n as [n IH] using lt_wf_ind. intros s ->.
  destruct s as [|a s1]; [done|].
  cbn [lstrip all_ws_bytes starts_blank]. destruct (space1 a) eqn:E1.
  { intros H. destruct (IH (String.length s1) ltac:(simpl; lia) s1 eq_refl H) as [-> _].
    by rewrite (lead_byte _ (space1_lead _ E1)), (space1_lead _ E1). }
  destruct s1 as [|b s2]; [done|].
  destruct (space2 a b) eqn:E2.
  { intros H. destruct (IH (String.length s2) ltac:(simpl; lia) s2 eq_refl H) as [H2 _].
    destruct (space2_bytes _ _ E2) as [Ha Hb].
    cbn [all_ws_bytes]. by rewrite (lead_byte _ Ha), Ha, Hb, H2. }
  destruct s2 as [|c s3]; [done|].
  destruct (space3 a b c) eqn:E3; [|done].
  intros H. destruct (IH (String.length s3) ltac:(simpl; lia) s3 eq_refl H) as [H3 _].
  destruct (space3_bytes _ _ _ E3) as (Ha & Hb & Hc).
  cbn [all_ws_bytes]. by rewrite (lead_byte _ Ha), Ha, Hb, Hc, H3.
Qed.

(** [rstrip] removes a suffix that is whitespace throughout. *)
Lemma rstrip_split s :
  exists post, s = rstrip s +:+ post /\ lstrip post = EmptyString.
Proof.
  induction s as [|a s (post & Hs & Hpost)]; [by exists EmptyString|].
  cbn [rstrip]. destruct (lstrip (String a s)) eqn:E.
  - by exists (String a s).
  - exists post. by rewrite app_cons, <- Hs.
Qed.

Lemma prefix_within p post :
  all_ws_bytes post = true -> String.prefix p post = true ->
  all_ws_bytes p = true.
Proof.
  revert post. induction p as [|a p IH]; [done|]. intros [|b post]; [done|].
  rewrite prefix_cons. cbn [all_ws_bytes]. destruct (ascii_dec a b) as [->|]; [|done].
  intros [Hb Hpost]%andb_true_iff Hp. rewrite Hb. simpl. by eapply IH.
Qed.

Lemma prefix_app_blank p t post :
  guarded p = true -> all_ws_bytes post = true -> starts_blank post = true ->
  String.prefix p (t +:+ post) = String.prefix p t.
Proof.
  intros Hp Hpost Hhead. revert p Hp.
  induction t as [|b t IH]; intros p Hp.
  - rewrite app_nil. destruct p as [|a p]; [by rewrite !prefix_nil|].
    transitivity false; [|reflexivity].
    destruct (String.prefix (String a p) post) eqn:E; [|done].
    destruct p as [|a' p].
    + destruct post as [|c post]; [done|]. rewrite prefix_cons in E.
      destruct (ascii_dec a c) as [->|]; [|done].
      cbn in Hp, Hhead. by rewrite Hhead in Hp.
    + apply prefix_within in E; [|done].
      cbn [guarded] in Hp. by rewrite E in Hp.
  - destruct p as [|a p]; [by rewrite !prefix_nil|].
    rewrite app_cons, !prefix_cons. destruct (ascii_dec a b); [|done].
    apply IH. destruct p; [done|]. cbn [guarded] in Hp.
    by apply andb_true_iff in Hp as [_ ?].
Qed.

Lemma contains_blank p post :
  anchored p = true -> all_ws_bytes post = true -> contains p post = false.
Proof.
  destruct p as [|a p]; [done|]. cbn [anchored]. intros Ha.
  induction post as [|b post IH]; [done|].
  cbn [all_ws_bytes]. intros [Hb Hpost]%andb_true_iff.
  rewrite contains_cons, prefix_cons, (IH Hpost).
  destruct (ascii_dec a b) as [->|]; [|done]. by rewrite Hb in Ha.
Qed.

Lemma contains_skip_blank p pre t :
  anchored p = true -> all_ws_bytes pre = true ->
  contains p (pre +:+ t) = contains p t.
Proof.
  destruct p as [|a p]; [done|]. cbn [anchored]. intros Ha.
  induction pre as [|b pre IH]; [done|].
  cbn [all_ws_bytes]. intros [Hb Hpre]%andb_true_iff.
  rewrite app_cons, contains_cons, prefix_cons, (IH Hpre).
  destruct (ascii_dec a b) as [->|]; [|done]. by rewrite Hb in Ha.
Qed.

Lemma contains_app_blank p t post :
  anchored p = true -> guarded p = true -> lstrip post = EmptyString ->
  contains p (t +:+ post) = contains p t.
Proof.
  intros Ha Hg [Hpost Hhead]%blank_bytes.
  induction t as [|b t IH].
  - rewrite app_nil, (contains_blank _ _ Ha Hpost). by destruct p.
  - rewrite app_cons, !contains_cons, IH. f_equal.
    by rewrite <- app_cons, prefix_app_blank.
Qed.

(** Stripping neither hides nor creates an occurrence of such a
    pattern. *)
Lemma contains_strip p s :
  anchored p = true -> guarded p = true ->
  contains p (strip s) = contains p s.
Proof.
  intros Ha Hg. unfold strip.
  destruct (lstrip_split s) as (pre & Hs & Hpre).
  destruct (rstrip_split (lstrip s)) as (post & Hl & Hpost).
  rewrite Hs at 2. rewrite (contains_skip_blank _ _ _ Ha Hpre).
  rewrite Hl at 2. by rewrite (contains_app_blank _ _ _ Ha Hg Hpost).
Qed.

Lemma contains_nonempty p s :
  nonempty p = true -> contains p s = true -> nonempty s = true.
Proof. by destruct p, s. Qed.

(** For such a pattern, "non-empty and contains it" reads the same
    before and after stripping. *)
Lemma strip_signal p s :
  anchored p = true -> guarded p = true ->
  nonempty (strip s) && contains p (strip s) = nonempty s && contains p s.
Proof.
  intros Ha Hg. rewrite (contains_strip _ s Ha Hg).
  assert (nonempty p = true) as Hp by by destruct p.
  destruct (contains p s) eqn:E; [|by rewrite !andb_false_r].
  rewrite (contains_nonempty p s Hp E).
  rewrite <- (contains_strip _ s Ha Hg) in E.
  by rewrite (contains_nonempty p _ Hp E).
Qed.

(** Stripping neither removes nor brings in a NUL character. *)
Lemma has_nul_strip s : has_nul (strip s) = has_nul s.
Proof. by apply contains_strip; vm_compute. Qed.

Example has_nul_samples :
  has_nul ("gh" +:+ NUL +:+ "p") = true /\ has_nul "ghp_1" = false
  /\ has_nul EmptyString = false.
Proof. repeat split. Qed.

End StringFacts.

(** ** The download server *)
Section DownloadServerFacts.
Import Py DownloadServer Samples.

Lemma quote_zip_file : quote ZIP_FILE = ZIP_FILE.
Proof. reflexivity. Qed.

Example quote_space : quote "a b/c.zip" = "a%20b/c.zip".
Proof. reflexivity. Qed.

(** 0.25 and 0.75 are ties and go to the even tenth, as [.1f] does. *)
Example format_kilobytes_samples :
  map format_kilobytes [0; 51; 52; 256; 768; 2048; 123456]
  = ["0.0"; "0.0"; "0.1"; "0.2"; "0.8"; "2.0"; "120.6"].
Proof. reflexivity. Qed.

(** Without the archive the script exits before serving anything. *)
Lemma main_exits_without_archive (fs0 : filesystem) (rs : list request) :
  fs0 !! ZIP_FILE = None -> main fs0 rs = Raise (SystemExit 1).
Proof.
  intros E. unfold main, path_exists. rewrite E.
  rewrite bool_decide_eq_false_2; [done|]. by intros [? ?].
Qed.

Lemma parse_path_samples :
  map parse_path ["/"; "/download"; "//"; "///download"; "/a//b"; "a"; EmptyString]
  = ["/"; "/download"; "/"; "/download"; "/a//b"; "a"; EmptyString].
Proof. reflexivity. Qed.

Lemma path_exists_true (fs : filesystem) p f :
  fs !! p = Some f -> path_exists fs p = true.
Proof. intros H. unfold path_exists. rewrite H. by apply bool_decide_eq_true. Qed.

Lemma path_exists_false (fs : filesystem) p :
  fs !! p = None -> path_exists fs p = false.
Proof.
  intros H. unfold path_exists. rewrite H.
  apply bool_decide_eq_false. by intros [? ?].
Qed.

Lemma round_half_even_near num den :
  0 < den -> 2 * Z.abs (den * round_half_even num den - num) <= den.
Proof.
  intros Hden. unfold round_half_even.
  pose proof (Z.div_mod num den ltac:(lia)) as Hdm.
  pose proof (Z.mod_pos_bound num den Hden) as Hr.
  set (q := num / den) in *. set (r := num mod den) in *.
  destruct (Z.ltb_spec (2 * r) den); [lia|].
  destruct (Z.ltb_spec den (2 * r)); [lia|].
  destruct (Z.even q); lia.
Qed.

(** C1: a GET of "/download" answers 200 with a Content-Disposition
    attachment header naming the archive and the bytes of the file as
    body when the archive exists, and 404 when it does not. *)
Theorem download_serves_archive (fs : filesystem) :
  match fs !! ZIP_FILE with
  | Some f =>
      exists w, handle {| disk := fs; path := "/download" |} = (Return tt, w)
        /\ status_of w = Some 200
        /\ header_of "Content-Disposition" w
           = Some ("attachment; filename=" +:+ ZIP_FILE)
        /\ body_of w = contents f
  | None =>
      exists w, handle {| disk := fs; path := "/download" |} = (Return tt, w)
        /\ status_of w = Some 404
  end.
Proof.
  unfold handle. cbn [disk path].
  change (parse_path "/download") with "/download". unfold do_GET.
  destruct (fs !! ZIP_FILE) as [f|] eqn:E.
  - rewrite (path_exists_true _ _ _ E). unfold read_bytes. rewrite E.
    eexists. split; [reflexivity|]. repeat split.
    cbn. by rewrite app_nil_r.
  - rewrite (path_exists_false _ _ E). eexists. split; [reflexivity|]. done.
Qed.

(** C2, as the code has it: while the archive exists, a GET of "/"
    answers 200 with the page as body, and the page shows the size of
    the archive at that request in kilobytes with one decimal, which
    is within a twentieth of a kilobyte of the size on disk. *)
Theorem root_page_shows_kilobytes (fs : filesystem) (f : file) :
  fs !! ZIP_FILE = Some f ->
  let size := Z.of_nat (length (contents f)) in
  let t := tenths_of_kilobyte size in
  exists w, handle {| disk := fs; path := "/" |} = (Return tt, w)
    /\ status_of w = Some 200
    /\ header_of "Content-type" w = Some "text/html"
    /\ body_of w = encode (html size)
    /\ contains (format_kilobytes size) (html size) = true
    /\ format_kilobytes size = decimal (t / 10) +:+ "." +:+ decimal (t mod 10)
    /\ (size < 2 ^ 53 -> Z.abs (1024 * t - 10 * size) <= 512).
Proof.
  intros E size t. unfold handle. cbn [disk path].
  change (parse_path "/") with "/". unfold do_GET. cbn [String.eqb].
  unfold getsize. rewrite E. fold size.
  eexists. split; [reflexivity|]. repeat split.
  - cbn. by rewrite app_nil_r.
  - unfold html. apply contains_middle.
  - intros Hsize. subst t. unfold tenths_of_kilobyte, to_double.
    destruct (Z.ltb_spec size (2 ^ 53)); [|lia].
    pose proof (round_half_even_near (10 * size) 1024 ltac:(lia)). lia.
Qed.

Lemma root_page_shows_kilobytes_witness :
  exists w, handle {| disk := disk_with (archive 2048); path := "/" |} = (Return tt, w)
    /\ status_of w = Some 200
    /\ contains "2.0" (html 2048) = true.
Proof.
  destruct (root_page_shows_kilobytes (disk_with (archive 2048)) (archive 2048))
    as (w & Hw & Hs & _ & _ & Hc & _); [reflexivity|].
  exists w. split; [exact Hw|]. split; [exact Hs|]. exact Hc.
Defined.

(** C2 as stated fails: for an archive of 2048 bytes the page shows
    "2.0" and nowhere "2048"; and with the archive gone the request
    gets the 200 status line and headers but no body at all. *)
Lemma root_page_omits_byte_size :
  (exists w, handle {| disk := disk_with (archive 2048); path := "/" |} = (Return tt, w)
     /\ status_of w = Some 200
     /\ contains (decimal 2048) (string_of_list_byte (body_of w)) = false)
  /\ (exists w, handle {| disk := ∅; path := "/" |} = (Raise FileNotFoundError, w)
       /\ body_of w = []).
Proof.
  split; eexists; (split; [vm_compute; reflexivity|]); by vm_compute.
Qed.

(** C8, as the code and [http.server] have it: a GET of a path that,
    once a leading run of two or more slashes is reduced to one, is
    neither "/" nor "/download" answers 404. *)
Theorem other_paths_not_found (fs : filesystem) (p : string) :
  parse_path p <> "/" -> parse_path p <> "/download" ->
  exists w, handle {| disk := fs; path := p |} = (Return tt, w)
    /\ status_of w = Some 404
    /\ body_of w = encode "404 - Page not found".
Proof.
  intros H1%String.eqb_neq H2%String.eqb_neq.
  unfold handle, do_GET. cbn [disk path]. rewrite H1, H2.
  eexists. split; [reflexivity|]. by split.
Qed.

Lemma other_paths_not_found_witness :
  exists w, handle {| disk := ∅; path := "/index.html" |} = (Return tt, w)
    /\ status_of w = Some 404
    /\ body_of w = encode "404 - Page not found".
Proof. apply (other_paths_not_found ∅ "/index.html"); discriminate. Defined.

(** C8 as stated fails: the paths "//" and "//download" are neither
    "/" nor "/download", yet the first is answered with the page and
    the second with the archive, both with status 200. *)
Lemma double_slash_is_served :
  ("//" <> "/" /\ "//" <> "/download"
   /\ exists w, handle {| disk := disk_with (archive 2048); path := "//" |}
                = (Return tt, w)
        /\ status_of w = Some 200
        /\ body_of w = encode (html 2048))
  /\ ("//download" <> "/" /\ "//download" <> "/download"
      /\ exists w, handle {| disk := disk_with (archive 2048);
                             path := "//download" |}
                   = (Return tt, w)
           /\ status_of w = Some 200
           /\ body_of w = contents (archive 2048)).
Proof.
  split; (split; [discriminate|]); (split; [discriminate|]);
    eexists; (split; [reflexivity|]); split; by vm_compute.
Qed.

(** C9: the script checks that the archive exists once, before the
    server starts; [do_GET] for "/" calls [getsize] with no check of
    its own.  So when the archive is there at the start and gone when
    a request for "/" is handled, that request has its 200 status
    line and headers sent, then [getsize] raises and no body is
    written; the other requests are served as usual. *)
Theorem root_page_needs_archive (fs0 fs : filesystem) (before after : list request) :
  path_exists fs0 ZIP_FILE = true ->
  fs !! ZIP_FILE = None ->
  exists answers,
    main fs0 (before ++ {| disk := fs; path := "/" |} :: after) = Return answers
    /\ answers = serve_forever before
                 ++ (Raise FileNotFoundError,
                     [StatusLine 200; HeaderLine "Content-type" "text/html";
                      BlankLine])
                 :: serve_forever after
    /\ body_of [StatusLine 200; HeaderLine "Content-type" "text/html"; BlankLine]
       = [].
Proof.
  intros H0 E. unfold main. rewrite H0. cbn [negb].
  eexists. split; [reflexivity|]. split; [|reflexivity].
  unfold serve_forever. rewrite map_app. cbn [map]. do 2 f_equal.
  unfold handle. cbn [disk path]. change (parse_path "/") with "/".
  unfold do_GET. cbn [String.eqb]. unfold getsize. by rewrite E.
Qed.

Lemma root_page_needs_archive_witness :
  exists answers,
    main (disk_with (archive 3)) [{| disk := ∅; path := "/" |}] = Return answers
    /\ answers = [(Raise FileNotFoundError,
                   [StatusLine 200; HeaderLine "Content-type" "text/html";
                    BlankLine])].
Proof.
  destruct (root_page_needs_archive (disk_with (archive 3)) ∅ [] [])
    as (answers & Hm & Ha & _); [reflexivity | reflexivity |].
  exists answers. split; [exact Hm | exact Ha].
Defined.

End DownloadServerFacts.

(** ** The uploader *)
Section Frames.
Import Py Uploader Spec.

Variable R : world -> world -> Prop.
Hypothesis R_refl : forall w, R w w.
Hypothesis R_trans : forall a b c, R a b -> R b c -> R a c.

Lemma framed_ret {A} (a : A) : framed R (mret a).
Proof. intros w. apply R_refl. Qed.

Lemma framed_raise {A} e : framed R (@raise world A e).
Proof. intros w. apply R_refl. Qed.

Lemma framed_get : framed R get.
Proof. intros w. apply R_refl. Qed.

Lemma framed_environ_get k : framed R (os_environ_get k).
Proof. intros w. apply R_refl. Qed.

Lemma framed_bind {A B} (c : M world A) (k : A -> M world B) :
  framed R c -> (forall a, framed R (k a)) -> framed R (c ≫= k).
Proof.
  intros Hc Hk w. unfold mbind, M_bind, bind.
  specialize (Hc w). destruct (c w) as [[a|e] w1]; [|exact Hc].
  eapply R_trans; [exact Hc | apply Hk].
Qed.

Lemma framed_getsize fs p : framed R (getsize fs p).
Proof. unfold getsize. destruct (fs !! p); [apply framed_ret | apply framed_raise]. Qed.

Lemma framed_getmtime fs p : framed R (getmtime fs p).
Proof. unfold getmtime. destruct (fs !! p); [apply framed_ret | apply framed_raise]. Qed.

End Frames.

Section UploaderFacts.
Import Py Uploader Spec Samples.

Variable shell : string -> gmap string string -> filesystem -> completed.
Variable release_label : string.

Lemma input_line p w line rest :
  stdin w = line :: rest -> input p w = (Return line, prompted p rest w).
Proof. intros H. unfold input. by rewrite H. Qed.

Lemma input_eof p w :
  stdin w = [] -> input p w = (Raise EOFError, log (Prompted p) w).
Proof. intros H. unfold input. by rewrite H. Qed.

(** *** The files are out of reach of the prompts *)

Lemma same_files_refl w : same_files w w.
Proof. reflexivity. Qed.

Lemma same_files_trans a b c : same_files a b -> same_files b c -> same_files a c.
Proof. unfold same_files. congruence. Qed.

Lemma same_files_input p : framed same_files (input p).
Proof. intros w. unfold input. by destruct (stdin w). Qed.

Lemma same_files_set k v : framed same_files (os_environ_set k v).
Proof. intros w. unfold os_environ_set. by destruct (has_nul v). Qed.

Lemma environ_set_stored k v w :
  has_nul v = false -> os_environ_set k v w = (Return tt, with_env k v w).
Proof. intros H. unfold os_environ_set. by rewrite H. Qed.

Lemma environ_set_refused k v w :
  has_nul v = true -> os_environ_set k v w = (Raise ValueError, w).
Proof. intros H. unfold os_environ_set. by rewrite H. Qed.

Ltac frame_with R_refl R_trans leaves :=
  repeat first
    [ apply (framed_ret _ R_refl)
    | apply (framed_raise _ R_refl)
    | apply (framed_get _ R_refl)
    | apply (framed_environ_get _ R_refl)
    | apply (framed_getsize _ R_refl)
    | apply (framed_getmtime _ R_refl)
    | leaves
    | progress cbv beta zeta
    | lazymatch goal with
      | |- framed _ (mbind _ _) => apply (framed_bind _ R_trans); [|intros ?]
      | |- framed _ (if ?b then _ else _) => destruct b
      end ].

Ltac frame_files leaves :=
  frame_with same_files_refl same_files_trans
    ltac:(first [apply same_files_input | apply same_files_set | leaves]).

Lemma same_files_offer p : framed same_files (offer_to_save p).
Proof. unfold offer_to_save. frame_files fail. Qed.

Lemma same_files_token : framed same_files ensure_github_token.
Proof. unfold ensure_github_token. frame_files ltac:(apply same_files_offer). Qed.

Lemma same_files_repo : framed same_files ensure_github_repo.
Proof. unfold ensure_github_repo. frame_files ltac:(apply same_files_offer). Qed.

(** *** Running the two [ensure_] functions *)

Ltac run :=
  unfold mbind, mret, M_bind, M_ret, bind, ret, os_environ_get,
    os_environ_set, modify, get, raise;
  cbn [fst snd environ files stdin journal negb].

Lemma offer_environ p w : environ (snd (offer_to_save p w)) = environ w.
Proof.
  unfold offer_to_save, input. run.
  destruct (stdin w) as [|answer rest]; [done|]. cbn [stdin].
  destruct (String.eqb _ _); [|done]. by destruct rest.
Qed.

Lemma offer_answered p w :
  answers_offer (stdin w) = true -> fst (offer_to_save p w) = Return tt.
Proof.
  unfold offer_to_save, input, answers_offer. run.
  destruct (stdin w) as [|answer rest]; [done|]. cbn [stdin].
  destruct (String.eqb _ _); [|done]. destruct rest; [|done].
  by intros ?%bool_decide_eq_true.
Qed.

Lemma token_set w :
  truthy (environ w !! GITHUB_TOKEN) = true ->
  ensure_github_token w = (Return true, w).
Proof. intros H. unfold ensure_github_token. run. by rewrite H. Qed.

Lemma token_asked w line rest :
  truthy (environ w !! GITHUB_TOKEN) = false ->
  stdin w = line :: rest ->
  ensure_github_token w
  = if nonempty (strip line)
    then if has_nul (strip line)
         then (Raise ValueError, prompted AskToken rest w)
         else (offer_to_save AskSaveToken ≫= λ _, mret true)
                (with_env GITHUB_TOKEN (strip line) (prompted AskToken rest w))
    else (Return false, prompted AskToken rest w).
Proof.
  intros H Hin. unfold ensure_github_token. run. rewrite H. cbn [negb].
  rewrite (input_line _ _ _ _ Hin).
  destruct (nonempty (strip line)); [|done]. by destruct (has_nul (strip line)).
Qed.

Lemma repo_condition w :
  negb (truthy (environ w !! GITHUB_REPO))
  || bool_decide (environ w !! GITHUB_REPO = Some PLACEHOLDER_REPO) = true
  <-> repo_unsettled w.
Proof.
  unfold repo_unsettled.
  by rewrite orb_true_iff, negb_true_iff, bool_decide_eq_true.
Qed.

Lemma repo_set w :
  ~ repo_unsettled w -> ensure_github_repo w = (Return true, w).
Proof.
  intros H. unfold ensure_github_repo. run.
  destruct (_ || _) eqn:E; [|done]. by apply repo_condition in E.
Qed.

Lemma repo_asked w line rest :
  repo_unsettled w ->
  stdin w = line :: rest ->
  ensure_github_repo w
  = if nonempty (strip line) && contains "/" (strip line)
    then if has_nul (strip line)
         then (Raise ValueError, prompted AskRepo rest w)
         else (offer_to_save AskSaveRepo ≫= λ _, mret true)
                (with_env GITHUB_REPO (strip line) (prompted AskRepo rest w))
    else (Return false, prompted AskRepo rest w).
Proof.
  intros H%repo_condition Hin. unfold ensure_github_repo. run. rewrite H.
  rewrite (input_line _ _ _ _ Hin).
  destruct (_ && _); [|done]. by destruct (has_nul (strip line)).
Qed.

Lemma repo_eof w :
  repo_unsettled w -> stdin w = [] ->
  ensure_github_repo w = (Raise EOFError, log (Prompted AskRepo) w).
Proof.
  intros H%repo_condition Hin. unfold ensure_github_repo. run. rewrite H.
  by rewrite (input_eof _ _ Hin).
Qed.

Lemma offer_alike p w1 w2 :
  alike w1 w2 ->
  fst (offer_to_save p w1) = fst (offer_to_save p w2)
  /\ alike (snd (offer_to_save p w1)) (snd (offer_to_save p w2)).
Proof.
  intros [Hin Hj]. unfold offer_to_save, input, alike, log. run.
  rewrite <- Hin, <- Hj. destruct (stdin w1) as [|answer rest]; [done|].
  cbn [stdin journal]. destruct (String.eqb _ _); [|done]. by destruct rest.
Qed.

Lemma offer_journal p w :
  exists evs, journal (snd (offer_to_save p w)) = journal w ++ Prompted p :: evs.
Proof.
  unfold offer_to_save, input, log. run.
  destruct (stdin w) as [|answer rest]; [by exists []|].
  cbn [stdin journal]. destruct (String.eqb _ _); [|by exists []].
  destruct rest; cbn [journal]; rewrite <- app_assoc; by eexists.
Qed.

Lemma then_true_fst {A} (c : M world A) w :
  fst ((c ≫= λ _, mret true) w)
  = match fst (c w) with Return _ => Return true | Raise e => Raise e end.
Proof. run. by destruct (c w) as [[?|?] ?]. Qed.

Lemma then_true_snd {A} (c : M world A) w :
  snd ((c ≫= λ _, mret true) w) = snd (c w).
Proof. run. by destruct (c w) as [[?|?] ?]. Qed.

(** C10: with GITHUB_REPO set to the placeholder "username/repo",
    [ensure_github_repo] shows the repository prompt and from there
    goes on exactly as with the variable unset; any other value that
    contains "/" is accepted as it is, with no prompt. *)
Theorem placeholder_repo_counts_as_unset (w : world) :
  (environ w !! GITHUB_REPO = Some PLACEHOLDER_REPO ->
   let r := ensure_github_repo w in
   let r0 := ensure_github_repo (without_env GITHUB_REPO w) in
   fst r = fst r0 /\ alike (snd r) (snd r0)
   /\ exists evs, journal (snd r) = journal w ++ Prompted AskRepo :: evs)
  /\ (forall v, environ w !! GITHUB_REPO = Some v ->
       v <> PLACEHOLDER_REPO -> contains "/" v = true ->
       ensure_github_repo w = (Return true, w)).
Proof.
  split.
  - intros E.
    assert (repo_unsettled w) as U by by right.
    assert (repo_unsettled (without_env GITHUB_REPO w)) as U0.
    { left. cbn [without_env environ]. by rewrite lookup_delete_eq. }
    destruct (stdin w) as [|line rest] eqn:Hin.
    { rewrite (repo_eof _ U Hin), (repo_eof _ U0 Hin). cbn.
      repeat split. by exists []. }
    rewrite (repo_asked _ _ _ U Hin), (repo_asked _ _ _ U0 Hin).
    destruct (_ && _); [destruct (has_nul (strip line))|].
    + cbn. repeat split. by exists [].
    + cbv zeta. rewrite !then_true_fst, !then_true_snd.
      destruct (offer_alike AskSaveRepo
                  (with_env GITHUB_REPO (strip line) (prompted AskRepo rest w))
                  (with_env GITHUB_REPO (strip line)
                     (prompted AskRepo rest (without_env GITHUB_REPO w))))
        as [-> Ha]; [done|].
      split; [done|]. split; [done|].
      destruct (offer_journal AskSaveRepo
                  (with_env GITHUB_REPO (strip line) (prompted AskRepo rest w)))
        as [evs ->].
      cbn [with_env prompted journal]. rewrite <- app_assoc. by eexists.
    + cbn. repeat split. by exists [].
  - intros v E Hv Hslash. apply repo_set. intros [H|H].
    + rewrite E in H. cbn in H. destruct v; [done|by cbn in H].
    + congruence.
Qed.

(** *** [create_apk] and [main] *)

Lemma path_exists_file (fs : filesystem) p :
  path_exists fs p = true -> exists f, fs !! p = Some f.
Proof.
  unfold path_exists. intros H. apply bool_decide_eq_true in H.
  destruct H as [f Hf]. by exists f.
Qed.

Lemma execute_command_run c w :
  execute_command shell c w
  = (if returncode (shell c (environ w) (files w)) =? 0
     then Return (Some (strip (stdout (shell c (environ w) (files w)))))
     else Return None,
     ran c (shell c (environ w) (files w)) w).
Proof. unfold execute_command, ran. by destruct (_ =? _). Qed.

Lemma create_apk_keeps w answer rest :
  path_exists (files w) apk_path = true ->
  stdin w = answer :: rest ->
  lower (strip answer) <> "y" ->
  create_apk shell w = (Return (Some apk_path), prompted AskRebuild rest w).
Proof.
  intros Hex Hin Hno%String.eqb_neq. unfold create_apk. run. rewrite Hex.
  destruct (path_exists_file _ _ Hex) as [f Hf].
  unfold getmtime, getsize. rewrite Hf. run.
  rewrite (input_line _ _ _ _ Hin). by rewrite Hno.
Qed.

Lemma create_apk_builds w w1 :
  rebuild_start w w1 ->
  let r := shell BUILD_COMMAND (environ w1) (files w1) in
  create_apk shell w
  = (Return (if build_signal r then Some apk_path else None),
     ran BUILD_COMMAND r w1).
Proof.
  intros Hstart r.
  assert ((execute_command shell BUILD_COMMAND ≫= λ result,
           get ≫= λ w2,
           if truthy result && path_exists (files w2) apk_path
           then mret (Some apk_path) else mret None) w1
          = (Return (if build_signal r then Some apk_path else None),
             ran BUILD_COMMAND r w1)) as Hbuild.
  { unfold mbind, M_bind, bind. rewrite execute_command_run. fold r.
    unfold build_signal. run. cbn [ran files].
    destruct (returncode r =? 0); cbn [truthy andb]; [|done].
    by destruct (nonempty _ && _). }
  destruct Hstart as [[Hno ->] | (Hex & answer & rest & Hin & Hyes & ->)].
  - rewrite <- Hbuild. unfold create_apk. cbv zeta.
    unfold mbind at 1, M_bind at 1, bind at 1, get at 1. by rewrite Hno.
  - rewrite <- Hbuild. unfold create_apk. cbv zeta.
    unfold mbind at 1, M_bind at 1, bind at 1, get at 1. rewrite Hex.
    destruct (path_exists_file _ _ Hex) as [f Hf].
    unfold getmtime, getsize. rewrite Hf.
    unfold mbind at 1, M_bind at 1, bind at 1, mret at 1, M_ret at 1, ret at 1.
    unfold mbind at 1, M_bind at 1, bind at 1, mret at 1, M_ret at 1, ret at 1.
    unfold mbind at 1, M_bind at 1, bind at 1.
    rewrite (input_line _ _ _ _ Hin). by rewrite Hyes.
Qed.

(** C3, as the code has it: when [create_apk] rebuilds, or finds no
    artifact, it runs the build command once and returns the artifact
    path exactly when the command exited with code zero, printed
    something besides whitespace, and the artifact exists afterwards;
    otherwise it returns [None]. *)
Theorem build_success_signal (w w1 : world) :
  rebuild_start w w1 ->
  let r := shell BUILD_COMMAND (environ w1) (files w1) in
  let o := fst (create_apk shell w) in
  let w' := snd (create_apk shell w) in
  journal w' = journal w1 ++ [Ran BUILD_COMMAND (environ w1)]
  /\ files w' = files_after r
  /\ (o = Return (Some apk_path)
      <-> returncode r = 0 /\ strip (stdout r) <> EmptyString
          /\ path_exists (files w') apk_path = true)
  /\ (o <> Return (Some apk_path) -> o = Return None).
Proof.
  intros Hstart r o w'. subst o w'.
  rewrite (create_apk_builds _ _ Hstart). fold r. cbn [fst snd ran journal files].
  split; [done|]. split; [done|]. unfold build_signal.
  destruct (Z.eqb_spec (returncode r) 0) as [Hz|Hz]; cbn [andb].
  - destruct (strip (stdout r)) eqn:Hout; cbn [nonempty andb].
    + split; [|done]. split; [done|]. by intros (_ & ? & _).
    + destruct (path_exists (files_after r) apk_path).
      * split; [|done]. by split.
      * split; [|done]. split; [done|]. by intros (_ & _ & ?).
  - split; [|done]. split; [done|]. by intros [? _].
Qed.

(** C5, as the code has it: with the artifact in place and an answer
    to the rebuild prompt that is not "y" once stripped and
    lower-cased, [create_apk] returns the artifact path having only
    shown the prompt, and [main] is the upload of that path from
    there. *)
Theorem declined_rebuild_goes_to_upload (w : world) (answer : string)
        (rest : list string) :
  path_exists (files w) apk_path = true ->
  stdin w = answer :: rest ->
  lower (strip answer) <> "y" ->
  create_apk shell w = (Return (Some apk_path), prompted AskRebuild rest w)
  /\ main shell release_label w
     = (upload_to_github shell release_label apk_path ≫= λ _, mret tt)
         (prompted AskRebuild rest w).
Proof.
  intros Hex Hin Hno. pose proof (create_apk_keeps _ _ _ Hex Hin Hno) as Hc.
  split; [exact Hc|]. unfold main.
  unfold mbind at 1, M_bind at 1, bind at 1. rewrite Hc.
  change (negb (truthy (Some apk_path))) with false. cbv iota.
  change (the (Some apk_path)) with apk_path.
  unfold mbind, M_bind, bind.
  destruct (upload_to_github _ _ _ _) as [[[]|e] w2]; reflexivity.
Qed.

(** *** A variable, once set, stays and is inherited *)

Lemma observed_refl k v w : environ w !! k = Some v -> observed k v w w.
Proof. intros H. split; [done|]. exists []. by rewrite app_nil_r. Qed.

Lemma observed_trans k v a b c :
  observed k v a b -> observed k v b c -> observed k v a c.
Proof.
  intros [_ (e1 & J1 & F1)] [H (e2 & J2 & F2)]. split; [done|].
  exists (e1 ++ e2). rewrite J2, J1, app_assoc. split; [done|].
  by apply Forall_app.
Qed.

Lemma settled_refl k v w : settled k v w w.
Proof. intros H. by apply observed_refl. Qed.

Lemma settled_trans k v a b c :
  settled k v a b -> settled k v b c -> settled k v a c.
Proof.
  intros Hab Hbc H. specialize (Hab H).
  eapply observed_trans; [exact Hab|]. apply Hbc, Hab.
Qed.

Lemma settled_input k v p : framed (settled k v) (input p).
Proof.
  intros w H. unfold input, log.
  destruct (stdin w); (split; [done|]); exists [Prompted p];
    (split; [done|]); by repeat constructor.
Qed.

Lemma settled_set k v k' v' :
  k' <> k -> framed (settled k v) (os_environ_set k' v').
Proof.
  intros Hk w H. unfold os_environ_set.
  destruct (has_nul v'); [by apply observed_refl|]. split.
  - cbn. by rewrite lookup_insert_ne.
  - exists []. cbn. by rewrite app_nil_r.
Qed.

Lemma settled_execute k v c : framed (settled k v) (execute_command shell c).
Proof.
  intros w H. rewrite execute_command_run. split; [done|].
  exists [Ran c (environ w)]. split; [done|]. by repeat constructor.
Qed.

Ltac frame_settled leaves :=
  frame_with uconstr:(settled_refl _ _) uconstr:(settled_trans _ _)
    ltac:(first [ apply settled_input | apply settled_execute
                | apply settled_set; discriminate | leaves ]).

Lemma settled_offer k v p : framed (settled k v) (offer_to_save p).
Proof. unfold offer_to_save. frame_settled fail. Qed.

Lemma settled_repo v : framed (settled GITHUB_TOKEN v) ensure_github_repo.
Proof. unfold ensure_github_repo. frame_settled ltac:(apply settled_offer). Qed.

Lemma observed_bind {A B} k v (c : M world A) (K : A -> M world B) w :
  observed k v w (snd (c w)) ->
  (forall a, framed (settled k v) (K a)) ->
  observed k v w (snd ((c ≫= K) w)).
Proof.
  intros Hc HK. unfold mbind, M_bind, bind.
  destruct (c w) as [[a|e] w1]; [|exact Hc]. cbn [snd] in Hc.
  eapply observed_trans; [exact Hc|]. apply HK, Hc.
Qed.

Lemma observed_written k v p rest w :
  observed k v w (with_env k v (prompted p rest w)).
Proof.
  split; [cbn; by rewrite lookup_insert_eq|].
  exists [Prompted p]. split; [done|]. by repeat constructor.
Qed.

Lemma token_observed w line rest :
  truthy (environ w !! GITHUB_TOKEN) = false ->
  stdin w = line :: rest ->
  nonempty (strip line) = true ->
  has_nul (strip line) = false ->
  observed GITHUB_TOKEN (strip line) w (snd (ensure_github_token w)).
Proof.
  intros H Hin Hne Hz.
  rewrite (token_asked _ _ _ H Hin), Hne, Hz, then_true_snd.
  eapply observed_trans; [apply observed_written|].
  apply settled_offer. cbn. by rewrite lookup_insert_eq.
Qed.

Lemma repo_observed w line rest :
  repo_unsettled w ->
  stdin w = line :: rest ->
  nonempty (strip line) && contains "/" (strip line) = true ->
  has_nul (strip line) = false ->
  observed GITHUB_REPO (strip line) w (snd (ensure_github_repo w)).
Proof.
  intros H Hin Hne Hz.
  rewrite (repo_asked _ _ _ H Hin), Hne, Hz, then_true_snd.
  eapply observed_trans; [apply observed_written|].
  apply settled_offer. cbn. by rewrite lookup_insert_eq.
Qed.

(** *** [upload_to_github] *)

Lemma marker_signal out :
  nonempty (strip out) && contains SUCCESS_MARKER (strip out)
  = nonempty out && contains SUCCESS_MARKER out.
Proof. by apply strip_signal; vm_compute. Qed.

Lemma slash_signal line :
  nonempty (strip line) && contains "/" (strip line)
  = nonempty line && contains "/" line.
Proof. by apply strip_signal; vm_compute. Qed.

Lemma upload_runs path w w1 :
  upload_ready release_label path w w1 ->
  let r := shell (upload_command path) (environ w1) (files w1) in
  upload_to_github shell release_label path w
  = (Return (upload_signal r), ran (upload_command path) r w1).
Proof.
  intros (Hex & wa & wb & Ht & Hr & Hset) r.
  assert (has_nul release_label = false
          /\ w1 = with_env RELEASE_VERSION release_label wb) as [Hz Hw1].
  { unfold os_environ_set in Hset.
    destruct (has_nul release_label); [done|]. by injection Hset as <-. }
  subst w1.
  pose proof (same_files_token w) as Fa. rewrite Ht in Fa.
  pose proof (same_files_repo wa) as Fb. rewrite Hr in Fb.
  unfold same_files in Fa, Fb. cbn [snd] in Fa, Fb.
  destruct (path_exists_file _ _ Hex) as [f Hf].
  unfold upload_to_github. run. rewrite Hex. cbn [negb].
  rewrite Ht, Hr. cbn [negb orb]. unfold getsize. rewrite Fb, Fa, Hf. run.
  rewrite Hz.
  rewrite execute_command_run. fold (with_env RELEASE_VERSION release_label wb).
  fold r. unfold upload_signal.
  destruct (returncode r =? 0); cbn [truthy the default andb id].
  - rewrite marker_signal. by destruct (_ && _).
  - done.
Qed.

Lemma upload_true_ready path w :
  fst (upload_to_github shell release_label path w) = Return true ->
  exists w1, upload_ready release_label path w w1.
Proof.
  unfold upload_to_github, upload_ready. run.
  destruct (path_exists (files w) path); [|by cbn]. cbn [negb].
  destruct (ensure_github_token w) as [[[]|e] wa];
    [|intros H; cbn in H; discriminate..].
  destruct (ensure_github_repo wa) as [[[]|e] wb] eqn:Hr;
    [|intros H; cbn in H; discriminate..].
  cbn [negb orb]. destruct (getsize (files wb) path wb) as [[size|e] wc];
    [|intros H; cbn in H; discriminate].
  destruct (has_nul release_label) eqn:Hz; [intros H; cbn in H; discriminate|].
  intros _. eexists. split; [done|]. exists wa, wb.
  split; [done|]. split; [done|]. reflexivity.
Qed.

(** C4: [upload_to_github] returns [True] exactly when it gets to run
    the upload command and that command exits with code zero with an
    output that is not empty and contains the marker; when the command
    runs and fails, prints nothing, or prints no marker, it returns
    [False]. *)
Theorem upload_success_is_marker_in_output (path : string) (w : world) :
  let result := upload_to_github shell release_label path w in
  let outcome_of w1 := shell (upload_command path) (environ w1) (files w1) in
  (fst result = Return true
   <-> exists w1, upload_ready release_label path w w1
        /\ returncode (outcome_of w1) = 0
        /\ stdout (outcome_of w1) <> EmptyString
        /\ contains SUCCESS_MARKER (stdout (outcome_of w1)) = true)
  /\ (forall w1, upload_ready release_label path w w1 ->
       (returncode (outcome_of w1) <> 0
        \/ stdout (outcome_of w1) = EmptyString
        \/ contains SUCCESS_MARKER (stdout (outcome_of w1)) = false) ->
       result = (Return false, ran (upload_command path) (outcome_of w1) w1)).
Proof.
  intros result outcome_of. subst result.
  assert (forall w1, upload_signal (outcome_of w1) = true
                     <-> returncode (outcome_of w1) = 0
                         /\ stdout (outcome_of w1) <> EmptyString
                         /\ contains SUCCESS_MARKER (stdout (outcome_of w1)) = true)
    as Hsig.
  { intros w1. unfold upload_signal.
    rewrite !andb_true_iff, Z.eqb_eq.
    destruct (stdout (outcome_of w1)); cbn [nonempty]; intuition congruence. }
  split; [split|].
  - intros Htrue. destruct (upload_true_ready _ _ Htrue) as [w1 Hready].
    exists w1. split; [done|]. apply Hsig.
    rewrite (upload_runs _ _ _ Hready) in Htrue. cbn [fst] in Htrue.
    by injection Htrue.
  - intros (w1 & Hready & Hok). rewrite (upload_runs _ _ _ Hready).
    cbn [fst]. f_equal. by apply Hsig.
  - intros w1 Hready Hbad. rewrite (upload_runs _ _ _ Hready).
    f_equal. f_equal. fold (outcome_of w1).
    destruct (upload_signal (outcome_of w1)) eqn:E; [|done].
    apply Hsig in E as (? & ? & ?). destruct Hbad as [?|[?|?]]; congruence.
Qed.

(** *** What the operator types at the two prompts *)

Lemma accepted_outcome p w rest :
  stdin w = rest ->
  let r := (offer_to_save p ≫= λ _, mret true) w in
  environ (snd r) = environ w
  /\ fst r <> Return false
  /\ (answers_offer rest = true -> fst r = Return true).
Proof.
  intros <-. cbv zeta. rewrite then_true_fst, then_true_snd, offer_environ.
  split; [done|]. split.
  - by destruct (fst (offer_to_save p w)).
  - intros H. by rewrite (offer_answered _ _ H).
Qed.

Lemma repo_verdict w line rest :
  stdin w = line :: rest -> repo_unsettled w ->
  let r := ensure_github_repo w in
  if nonempty line && contains "/" line
  then if has_nul line
       then r = (Raise ValueError, prompted AskRepo rest w)
       else environ (snd r) = <[GITHUB_REPO := strip line]> (environ w)
            /\ fst r <> Return false
            /\ (answers_offer rest = true -> fst r = Return true)
  else r = (Return false, prompted AskRepo rest w).
Proof.
  intros Hin U. cbv zeta.
  rewrite (repo_asked _ _ _ U Hin), slash_signal, has_nul_strip.
  destruct (nonempty line && contains "/" line); [|done].
  destruct (has_nul line); [done|].
  by apply (accepted_outcome AskSaveRepo
              (with_env GITHUB_REPO (strip line) (prompted AskRepo rest w)) rest).
Qed.

Lemma token_verdict w line rest :
  stdin w = line :: rest -> truthy (environ w !! GITHUB_TOKEN) = false ->
  let r := ensure_github_token w in
  if nonempty (strip line)
  then if has_nul line
       then r = (Raise ValueError, prompted AskToken rest w)
       else environ (snd r) = <[GITHUB_TOKEN := strip line]> (environ w)
            /\ fst r <> Return false
            /\ (answers_offer rest = true -> fst r = Return true)
  else r = (Return false, prompted AskToken rest w).
Proof.
  intros Hin U. cbv zeta. rewrite (token_asked _ _ _ U Hin), has_nul_strip.
  destruct (nonempty (strip line)); [|done].
  destruct (has_nul line); [done|].
  by apply (accepted_outcome AskSaveToken
              (with_env GITHUB_TOKEN (strip line) (prompted AskToken rest w)) rest).
Qed.

(** C7, as the code has it.  A line typed at the repository prompt
    passes the check of the script exactly when it is non-empty and
    contains "/"; otherwise the function returns [False] at once.  A
    line that passes and has no NUL character is accepted: its stripped
    form is stored, the function does not return [False], and it
    returns [True] once the offer to save is answered.  A line that
    passes and has a NUL character is refused by the environment: the
    function raises [ValueError] and nothing is stored.  A line typed
    at the token prompt passes exactly when something is left of it
    once surrounding whitespace is stripped, whatever that is, and is
    then accepted or refused in the same way. *)
Theorem prompts_validate_little (w : world) (line : string) (rest : list string) :
  stdin w = line :: rest ->
  (repo_unsettled w ->
   let r := ensure_github_repo w in
   if nonempty line && contains "/" line
   then if has_nul line
        then r = (Raise ValueError, prompted AskRepo rest w)
        else environ (snd r) = <[GITHUB_REPO := strip line]> (environ w)
             /\ fst r <> Return false
             /\ (answers_offer rest = true -> fst r = Return true)
   else r = (Return false, prompted AskRepo rest w))
  /\ (truthy (environ w !! GITHUB_TOKEN) = false ->
      let r := ensure_github_token w in
      if nonempty (strip line)
      then if has_nul line
           then r = (Raise ValueError, prompted AskToken rest w)
           else environ (snd r) = <[GITHUB_TOKEN := strip line]> (environ w)
                /\ fst r <> Return false
                /\ (answers_offer rest = true -> fst r = Return true)
      else r = (Return false, prompted AskToken rest w)).
Proof.
  intros Hin. split; intros U.
  - by apply repo_verdict.
  - by apply token_verdict.
Qed.

(** C6, as the code has it.  When GITHUB_TOKEN is unset or empty and
    the line typed at the token prompt is not blank and has no NUL
    character, its stripped form is written to the environment,
    [ensure_github_token] returns [True] once the offer to save is
    answered (the question and, after a yes, the request to press
    Enter), and through the rest of [upload_to_github] the variable
    keeps that value and the upload command inherits it.  The same
    holds for GITHUB_REPO (unset, empty or the placeholder) and a
    typed line that contains "/". *)
Theorem supplied_settings_reach_environment (w : world) (line : string)
        (rest : list string) :
  stdin w = line :: rest ->
  let v := strip line in
  has_nul v = false ->
  (truthy (environ w !! GITHUB_TOKEN) = false -> nonempty v = true ->
   environ (snd (ensure_github_token w)) = <[GITHUB_TOKEN := v]> (environ w)
   /\ (answers_offer rest = true -> fst (ensure_github_token w) = Return true)
   /\ (forall path, path_exists (files w) path = true ->
        observed GITHUB_TOKEN v w
          (snd (upload_to_github shell release_label path w))))
  /\ (repo_unsettled w -> contains "/" v = true ->
      environ (snd (ensure_github_repo w)) = <[GITHUB_REPO := v]> (environ w)
      /\ (answers_offer rest = true -> fst (ensure_github_repo w) = Return true)
      /\ (forall path w0, path_exists (files w0) path = true ->
           ensure_github_token w0 = (Return true, w) ->
           observed GITHUB_REPO v w
             (snd (upload_to_github shell release_label path w0)))).
Proof.
  intros Hin v Hz. split.
  - intros U Hv.
    pose proof (token_verdict w line rest Hin U) as H.
    cbv zeta in H. rewrite <- has_nul_strip in H. fold v in H.
    rewrite Hv, Hz in H. destruct H as (He & _ & Hr).
    split; [exact He|]. split; [exact Hr|].
    intros path Hex. unfold upload_to_github.
    unfold mbind at 1, M_bind at 1, bind at 1, get at 1. rewrite Hex. cbn [negb].
    apply observed_bind; [by apply (token_observed w line rest)|].
    intros have_token.
    frame_settled ltac:(apply settled_repo).
  - intros U Hv.
    assert (nonempty v && contains "/" v = true) as Hok.
    { rewrite Hv, andb_true_r. exact (contains_nonempty "/" v eq_refl Hv). }
    pose proof (repo_verdict w line rest Hin U) as H.
    cbv zeta in H. rewrite <- slash_signal, <- has_nul_strip in H. fold v in H.
    rewrite Hok, Hz in H. destruct H as (He & _ & Hr).
    split; [exact He|]. split; [exact Hr|].
    intros path w0 Hex Ht. unfold upload_to_github.
    unfold mbind at 1, M_bind at 1, bind at 1, get at 1. rewrite Hex. cbn [negb].
    unfold mbind at 1, M_bind at 1, bind at 1. rewrite Ht.
    apply observed_bind; [by apply (repo_observed w line rest)|].
    intros have_repo.
    frame_settled fail.
Qed.

End UploaderFacts.

(** ** Runs of the uploader on the sample worlds *)
Section UploaderRuns.
Import Py Uploader Spec Samples.

Lemma placeholder_repo_counts_as_unset_witness :
  fst (ensure_github_repo
         {| environ := {[ GITHUB_REPO := PLACEHOLDER_REPO ]}; files := ∅;
            stdin := ["me/app"; "n"]; journal := [] |})
  = fst (ensure_github_repo (bare ["me/app"; "n"]))
  /\ ensure_github_repo
       {| environ := {[ GITHUB_REPO := "me/app" ]}; files := ∅;
          stdin := []; journal := [] |}
     = (Return true,
        {| environ := {[ GITHUB_REPO := "me/app" ]}; files := ∅;
           stdin := []; journal := [] |}).
Proof.
  split.
  - destruct (proj1 (placeholder_repo_counts_as_unset
             {| environ := {[ GITHUB_REPO := PLACEHOLDER_REPO ]}; files := ∅;
                stdin := ["me/app"; "n"]; journal := [] |})) as [H _];
      [reflexivity | exact H].
  - apply (proj2 (placeholder_repo_counts_as_unset _) "me/app");
      [reflexivity | discriminate | reflexivity].
Defined.

Lemma build_success_signal_witness :
  fst (create_apk (script 0 "built") (bare [])) = Return (Some apk_path)
  <-> 0 = 0 /\ strip "built" <> EmptyString
      /\ path_exists
           (files (snd (create_apk (script 0 "built") (bare [])))) apk_path
         = true.
Proof.
  apply (build_success_signal (script 0 "built") (bare []) (bare [])).
  left. split; reflexivity.
Defined.

(** C3 as stated fails: the artifact is in place after the build, yet
    [create_apk] returns [None], once because the build printed
    nothing and once because it exited with code 1. *)
Lemma artifact_alone_is_not_success :
  (fst (create_apk (script 0 EmptyString) (bare [])) = Return None
   /\ path_exists (files (snd (create_apk (script 0 EmptyString) (bare []))))
                  apk_path = true)
  /\ (fst (create_apk (script 1 "built") (bare [])) = Return None
      /\ path_exists (files (snd (create_apk (script 1 "built") (bare []))))
                     apk_path = true).
Proof. repeat split; by vm_compute. Qed.

Lemma declined_rebuild_goes_to_upload_witness :
  create_apk (script 0 "built") (built ["n"])
  = (Return (Some apk_path), prompted AskRebuild [] (built ["n"])).
Proof.
  apply (declined_rebuild_goes_to_upload (script 0 "built") "v1" (built ["n"]) "n" []);
    [reflexivity | reflexivity | discriminate].
Defined.

(** C5 as stated fails: the answer "Y" is not 'y', yet the build
    command is run. *)
Lemma capital_y_rebuilds :
  "Y" <> "y"
  /\ journal (snd (create_apk (script 0 "built") (built ["Y"])))
     = [Prompted AskRebuild; Ran BUILD_COMMAND ∅].
Proof. split; [discriminate | by vm_compute]. Qed.

Lemma upload_success_is_marker_in_output_witness :
  fst (upload_to_github (script 0 ("ok: " +:+ SUCCESS_MARKER)) "v1" apk_path
         (built ["ghp_1"; "n"; "me/app"; "n"]))
  = Return true.
Proof.
  apply (proj1 (upload_success_is_marker_in_output
                  (script 0 ("ok: " +:+ SUCCESS_MARKER)) "v1" apk_path
                  (built ["ghp_1"; "n"; "me/app"; "n"]))).
  eexists. split.
  - split; [reflexivity|]. eexists. eexists.
    split; [vm_compute; reflexivity|].
    split; [vm_compute; reflexivity|]. reflexivity.
  - split; [reflexivity|]. split; [discriminate | by vm_compute].
Defined.

Lemma prompts_validate_little_witness :
  fst (ensure_github_repo (bare ["me/app"; "n"])) = Return true
  /\ fst (ensure_github_token (bare ["ghp_1"; "n"])) = Return true.
Proof.
  split.
  - destruct (prompts_validate_little (bare ["me/app"; "n"]) "me/app" ["n"] eq_refl)
      as [H _].
    specialize (H (or_introl eq_refl)). destruct H as (_ & _ & H).
    apply H. reflexivity.
  - destruct (prompts_validate_little (bare ["ghp_1"; "n"]) "ghp_1" ["n"] eq_refl)
      as [_ H].
    specialize (H eq_refl). destruct H as (_ & _ & H).
    apply H. reflexivity.
Defined.

(** C7 as stated fails.  For the token: a line of two spaces is not
    empty, and it is turned down; and a token with a NUL character in
    it ends the function with [ValueError].  For the repository: a
    name that is non-empty and contains "/" is not accepted when it
    has a NUL character in it; the function raises [ValueError] and
    GITHUB_REPO stays unset. *)
Lemma blank_token_is_rejected :
  (nonempty "  " = true
   /\ ensure_github_token (bare ["  "])
      = (Return false, prompted AskToken [] (bare ["  "])))
  /\ (nonempty ("gh" +:+ NUL +:+ "p") = true
      /\ ensure_github_token (bare ["gh" +:+ NUL +:+ "p"; "n"])
         = (Raise ValueError,
            prompted AskToken ["n"] (bare ["gh" +:+ NUL +:+ "p"; "n"])))
  /\ (nonempty ("me/a" +:+ NUL +:+ "pp") = true
      /\ contains "/" ("me/a" +:+ NUL +:+ "pp") = true
      /\ ensure_github_repo (bare ["me/a" +:+ NUL +:+ "pp"; "n"])
         = (Raise ValueError,
            prompted AskRepo ["n"] (bare ["me/a" +:+ NUL +:+ "pp"; "n"]))
      /\ environ (prompted AskRepo ["n"] (bare ["me/a" +:+ NUL +:+ "pp"; "n"]))
           !! GITHUB_REPO = None).
Proof. repeat split; by vm_compute. Qed.

Lemma supplied_settings_reach_environment_witness :
  environ (snd (ensure_github_token (bare [" ghp_1 "; "n"])))
  = <[GITHUB_TOKEN := "ghp_1"]> ∅
  /\ fst (ensure_github_token (bare [" ghp_1 "; "n"])) = Return true.
Proof.
  destruct (supplied_settings_reach_environment (script 0 "ok") "v1"
              (bare [" ghp_1 "; "n"]) " ghp_1 " ["n"] eq_refl eq_refl) as [H _].
  destruct (H eq_refl eq_refl) as (He & Hr & _).
  split; [exact He | apply Hr; reflexivity].
Defined.

(** C6 as stated fails: the non-empty repository name "myrepo" is not
    written and [ensure_github_repo] returns [False]; for the token
    typed as " ghp_1 " the environment receives "ghp_1", not the line
    as typed; when the token is the last line of input, the token is
    written but the function raises at the save prompt instead of
    returning [True]; when the save question is answered "y" and
    nothing follows, it raises at the request to press Enter; and a
    non-empty token with a NUL character in it is not written at all,
    the function raising [ValueError]. *)
Lemma supplied_value_is_not_written_as_typed :
  (fst (ensure_github_repo (bare ["myrepo"])) = Return false
   /\ environ (snd (ensure_github_repo (bare ["myrepo"]))) !! GITHUB_REPO = None)
  /\ (environ (snd (ensure_github_token (bare [" ghp_1 "; "n"]))) !! GITHUB_TOKEN
      = Some "ghp_1"
      /\ "ghp_1" <> " ghp_1 ")
  /\ (fst (ensure_github_token (bare ["ghp_1"])) = Raise EOFError
      /\ environ (snd (ensure_github_token (bare ["ghp_1"]))) !! GITHUB_TOKEN
         = Some "ghp_1")
  /\ (fst (ensure_github_token (bare ["ghp_1"; "y"])) = Raise EOFError
      /\ journal (snd (ensure_github_token (bare ["ghp_1"; "y"])))
         = [Prompted AskToken; Prompted AskSaveToken; Prompted AskEnter])
  /\ (nonempty (strip ("gh" +:+ NUL +:+ "p")) = true
      /\ fst (ensure_github_token (bare ["gh" +:+ NUL +:+ "p"; "n"]))
         = Raise ValueError
      /\ environ (snd (ensure_github_token (bare ["gh" +:+ NUL +:+ "p"; "n"])))
           !! GITHUB_TOKEN = None).
Proof. repeat split; by vm_compute. Qed.

End UploaderRuns.


(** ** More on the download server *)
Section DownloadServerMore.
Import Py DownloadServer Launch Conduct.

(** What reaches the connection, case by case. *)
Lemma handle_as_wire (v : version) (fs : filesystem) (p : string) :
  let head (status : Z) (headers : list wire) :=
    match v with
    | HTTP1 => StatusLine status :: headers ++ [BlankLine]
    | HTTP09 => []
    end in
  handle_as v {| disk := fs; path := p |}
  = if String.eqb (parse_path p) "/" then
      match fs !! ZIP_FILE with
      | Some f =>
          (Return tt,
           head 200 [HeaderLine "Content-type" "text/html"]
           ++ [Payload (encode (html (Z.of_nat (length (contents f)))))])
      | None =>
          (Raise FileNotFoundError,
           head 200 [HeaderLine "Content-type" "text/html"])
      end
    else if String.eqb (parse_path p) "/download" then
      match fs !! ZIP_FILE with
      | Some f =>
          (Return tt,
           head 200 [HeaderLine "Content-type" "application/zip";
                     HeaderLine "Content-Disposition"
                       ("attachment; filename=" +:+ ZIP_FILE)]
           ++ [Payload (contents f)])
      | None =>
          (Return tt,
           head 404 [HeaderLine "Content-type" "text/html"]
           ++ [Payload (encode "404 - File not found")])
      end
    else
      (Return tt,
       head 404 [HeaderLine "Content-type" "text/html"]
       ++ [Payload (encode "404 - Page not found")]).
Proof.
  cbv zeta. unfold handle_as. cbn [disk path].
  generalize (parse_path p). clear p. intros p. unfold do_GET.
  destruct (String.eqb p "/").
  { unfold getsize. destruct (fs !! ZIP_FILE); destruct v; reflexivity. }
  destruct (String.eqb p "/download"); [|destruct v; reflexivity].
  destruct (fs !! ZIP_FILE) as [f|] eqn:E.
  - rewrite (path_exists_true _ _ _ E). unfold read_bytes. rewrite E.
    destruct v; reflexivity.
  - rewrite (path_exists_false _ _ E). destruct v; reflexivity.
Qed.

(** X2: what reaches the client, for a request of either version.
    The path meant is the one the handler sees, after a leading run of
    two or more slashes is reduced to one.  A request that names its
    version gets a status line and a Content-type header: 200 for "/"
    and for "/download" with the archive present, 404 otherwise; the
    type is application/zip for a served archive and text/html
    otherwise; and Content-Disposition is sent with a served archive
    only.  An HTTP/0.9 request gets no status line and no header,
    only the body, which is the same for both versions. *)
Theorem every_answer_has_status_and_type (v : version) (r : request) :
  let p := parse_path (path r) in
  let served := String.eqb p "/download" && path_exists (disk r) ZIP_FILE in
  let w := snd (handle_as v r) in
  match v with
  | HTTP1 =>
      status_of w = Some (if String.eqb p "/" || served then 200 else 404)
      /\ header_of "Content-type" w
         = Some (if served then "application/zip" else "text/html")
      /\ header_of "Content-Disposition" w
         = if served then Some ("attachment; filename=" +:+ ZIP_FILE) else None
  | HTTP09 =>
      Forall (fun item => exists data, item = Payload data) w
  end
  /\ fst (handle_as v r) = fst (handle r)
  /\ body_of w = body_of (snd (handle r)).
Proof.
  destruct r as [fs p]. cbv zeta.
  change (handle {| disk := fs; path := p |})
    with (handle_as HTTP1 {| disk := fs; path := p |}).
  rewrite !handle_as_wire. cbn [disk path].
  destruct (String.eqb (parse_path p) "/") eqn:Hroot.
  { apply String.eqb_eq in Hroot. rewrite Hroot.
    destruct (fs !! ZIP_FILE); destruct v; cbn [fst snd app orb];
      (split; [|by split]); try done;
      repeat (constructor; [by eexists|]); constructor. }
  destruct (String.eqb (parse_path p) "/download") eqn:Hdl.
  2:{ destruct v; cbn [fst snd app orb andb];
        (split; [|by split]); try done;
        repeat (constructor; [by eexists|]); constructor. }
  destruct (fs !! ZIP_FILE) as [f|] eqn:E.
  - rewrite (path_exists_true _ _ _ E).
    destruct v; cbn [fst snd app orb andb];
      (split; [|by split]); try done;
      repeat (constructor; [by eexists|]); constructor.
  - rewrite (path_exists_false _ _ E).
    destruct v; cbn [fst snd app orb andb];
      (split; [|by split]); try done;
      repeat (constructor; [by eexists|]); constructor.
Qed.

Lemma handle_download_present (fs : filesystem) f :
  fs !! ZIP_FILE = Some f ->
  handle {| disk := fs; path := "/download" |}
  = (Return tt,
     [StatusLine 200; HeaderLine "Content-type" "application/zip";
      HeaderLine "Content-Disposition" ("attachment; filename=" +:+ ZIP_FILE);
      BlankLine; Payload (contents f)]).
Proof.
  intros E. unfold handle. cbn [disk path].
  change (parse_path "/download") with "/download". unfold do_GET.
  rewrite (path_exists_true _ _ _ E). unfold read_bytes. rewrite E. reflexivity.
Qed.

Lemma handle_root_present (fs : filesystem) f :
  fs !! ZIP_FILE = Some f ->
  handle {| disk := fs; path := "/" |}
  = (Return tt,
     [StatusLine 200; HeaderLine "Content-type" "text/html"; BlankLine;
      Payload (encode (html (Z.of_nat (length (contents f)))))]).
Proof.
  intros E. unfold handle. cbn [disk path].
  change (parse_path "/") with "/". unfold do_GET.
  unfold getsize. rewrite E. reflexivity.
Qed.

(** X3: on one and the same disk the page and the download agree: the
    size the page shows is computed from the number of bytes that the
    download delivers. *)
Theorem page_and_download_agree (fs : filesystem) (f : file) :
  fs !! ZIP_FILE = Some f ->
  let sent := body_of (snd (handle {| disk := fs; path := "/download" |})) in
  body_of (snd (handle {| disk := fs; path := "/" |}))
  = encode (html (Z.of_nat (length sent))).
Proof.
  intros E. rewrite (handle_download_present _ _ E), (handle_root_present _ _ E).
  cbn [snd body_of]. by rewrite !app_nil_r.
Qed.

Lemma page_and_download_agree_witness :
  body_of (snd (handle {| disk := Samples.disk_with (Samples.archive 2048);
                          path := "/" |}))
  = encode (html 2048).
Proof.
  exact (page_and_download_agree (Samples.disk_with (Samples.archive 2048))
           (Samples.archive 2048) eq_refl).
Defined.

Lemma round_half_even_mono n m den :
  0 < den -> n <= m -> round_half_even n den <= round_half_even m den.
Proof.
  intros Hden Hnm.
  pose proof (round_half_even_near n den Hden) as Hn.
  pose proof (round_half_even_near m den Hden) as Hm.
  destruct (Z.eq_dec n m) as [->|Hne]; [lia|].
  destruct (Z.le_gt_cases (round_half_even n den) (round_half_even m den)); [done|].
  nia.
Qed.

(** X4: below 2^53 bytes a larger archive is never shown as smaller:
    the number of tenths of a kilobyte on the page grows with the
    size. *)
Theorem shown_size_is_monotone (a b : Z) :
  0 <= a -> a <= b -> b < 2 ^ 53 ->
  tenths_of_kilobyte a <= tenths_of_kilobyte b.
Proof.
  intros Ha Hab Hb. unfold tenths_of_kilobyte, to_double.
  destruct (Z.ltb_spec a (2 ^ 53)); [|lia].
  destruct (Z.ltb_spec b (2 ^ 53)); [|lia].
  apply round_half_even_mono; lia.
Qed.

Lemma shown_size_is_monotone_witness :
  tenths_of_kilobyte 1000 <= tenths_of_kilobyte 2048.
Proof. apply shown_size_is_monotone; lia. Defined.

(** X5: an archive of at most 51 bytes, and only such a one, is shown
    as zero: the page reads "0.0" for it, though it may not be empty. *)
Theorem small_archive_shows_zero (size : Z) :
  0 <= size -> size < 2 ^ 53 ->
  (tenths_of_kilobyte size = 0 <-> size <= 51)
  /\ (size <= 51 -> format_kilobytes size = "0.0").
Proof.
  intros H0 Hbig.
  assert (tenths_of_kilobyte size = round_half_even (10 * size) 1024) as Ht.
  { unfold tenths_of_kilobyte, to_double. destruct (Z.ltb_spec size (2 ^ 53)); [done|lia]. }
  pose proof (round_half_even_near (10 * size) 1024 ltac:(lia)) as Hnear.
  assert (tenths_of_kilobyte size = 0 <-> size <= 51) as Hiff.
  { rewrite Ht. split; [lia|]. intros Hs.
    pose proof (round_half_even_mono 0 (10 * size) 1024 ltac:(lia) ltac:(lia)) as Hlo.
    change (round_half_even 0 1024) with 0 in Hlo. lia. }
  split; [exact Hiff|]. intros Hs. unfold format_kilobytes.
  by rewrite (proj2 Hiff Hs).
Qed.

Lemma small_archive_shows_zero_witness : format_kilobytes 51 = "0.0".
Proof. apply (small_archive_shows_zero 51); lia. Defined.

Lemma digits_of_uint d : all_digits (NilEmpty.string_of_uint d) = true.
Proof. induction d; cbn; try done. Qed.

Lemma decimal_digits n : all_digits (decimal n) = true /\ decimal n <> EmptyString.
Proof.
  unfold decimal, NilZero.string_of_uint.
  destruct (N.to_uint (Z.to_N n)) eqn:E; try (split; [apply (digits_of_uint (_ u))|done]).
  by split.
Qed.

Lemma decimal_one_digit r :
  0 <= r < 10 -> exists a, decimal r = String a EmptyString /\ is_digit a = true.
Proof.
  intros Hr.
  assert (r = 0 \/ r = 1 \/ r = 2 \/ r = 3 \/ r = 4 \/ r = 5 \/ r = 6
          \/ r = 7 \/ r = 8 \/ r = 9) as H by lia.
  repeat destruct H as [->|H]; try subst r; by eexists.
Qed.

(** X6: the size field is always a non-empty run of digits, a dot and
    exactly one digit; nothing else can get from the file size into the
    page. *)
Theorem size_field_shape (size : Z) :
  exists whole digit,
    format_kilobytes size = whole +:+ "." +:+ String digit EmptyString
    /\ all_digits whole = true /\ whole <> EmptyString /\ is_digit digit = true.
Proof.
  unfold format_kilobytes. set (t := tenths_of_kilobyte size).
  destruct (decimal_one_digit (t mod 10)) as (a & -> & Ha).
  { apply Z.mod_pos_bound. lia. }
  destruct (decimal_digits (t / 10)) as [Hd Hne].
  by exists (decimal (t / 10)), a.
Qed.

Lemma answers_app a b : answers (a ++ b) = answers a ++ answers b.
Proof. induction a as [|[] a IH]; cbn; by rewrite ?IH. Qed.

Lemma launches_app a b : launches (a ++ b) = launches a ++ launches b.
Proof. induction a as [|[] a IH]; cbn; by rewrite ?IH. Qed.

Lemma answers_answered l : answers (map Answered l) = l.
Proof. induction l as [|x l IH]; cbn; by rewrite ?IH. Qed.

Lemma launches_answered l : launches (map Answered l) = [].
Proof. by induction l. Qed.

(** X7: the script serves only if the archive is there when it starts;
    otherwise it exits with code 1 having answered nothing and opened
    no browser.  When it serves, each request gets its answer, in
    order; the browser is opened once, before the first answer, on the
    server's address, unless REPL_ID is a key of the environment, even
    with an empty value. *)
Theorem script_serves_only_with_archive (env : gmap string string)
        (fs0 : filesystem) (rs : list request) :
  let evs := fst (script env fs0 rs) in
  let code := snd (script env fs0 rs) in
  if path_exists fs0 ZIP_FILE
  then code = None
       /\ answers evs = map handle rs
       /\ launches evs
          = match env !! "REPL_ID" with Some _ => [] | None => [address] end
       /\ exists before after,
            evs = before ++ map Answered (map handle rs) ++ after
            /\ answers before = [] /\ launches after = []
  else code = Some 1 /\ answers evs = [] /\ launches evs = [].
Proof.
  unfold script. destruct (path_exists fs0 ZIP_FILE); cbn [negb fst snd]; [|done].
  unfold run_server, serve_forever, outside_replit.
  split; [done|]. split; [|split].
  - rewrite !answers_app, answers_answered.
    destruct (negb _); cbn; by rewrite app_nil_r.
  - rewrite !launches_app, launches_answered.
    by destruct (env !! "REPL_ID").
  - eexists (_ ++ _), _. rewrite <- app_assoc. split; [reflexivity|].
    split; [|done]. rewrite answers_app. by destruct (negb _).
Qed.

End DownloadServerMore.

(** ** More on stripping *)
Section StripMore.
Import Py Blank.

Lemma lstrip_shorter s : (String.length (lstrip s) <= String.length s)%nat.
Proof.
  remember (String.length s) as n eqn:Hn.
  revert s Hn. induction n as [n IH] using lt_wf_ind. intros s ->.
  destruct s as [|a s1]; [done|]. cbn [lstrip].
  destruct (space1 a).
  { specialize (IH (String.length s1) ltac:(simpl; lia) s1 eq_refl). simpl. lia. }
  destruct s1 as [|b s2]; [done|]. destruct (space2 a b).
  { specialize (IH (String.length s2) ltac:(simpl; lia) s2 eq_refl). simpl. lia. }
  destruct s2 as [|c s3]; [done|]. destruct (space3 a b c); [|done].
  specialize (IH (String.length s3) ltac:(simpl; lia) s3 eq_refl). simpl. lia.
Qed.

(** Whether [lstrip] leaves a non-empty string alone is decided by its
    first character. *)
Lemma lstrip_fixed_cases s :
  lstrip s = s <->
  match s with
  | String a s1 =>
      space1 a = false
      /\ match s1 with
         | String b s2 =>
             space2 a b = false
             /\ match s2 with
                | String c _ => space3 a b c = false
                | EmptyString => True
                end
         | EmptyString => True
         end
  | EmptyString => True
  end.
Proof.
  destruct s as [|a s1]; [done|]. cbn [lstrip].
  destruct (space1 a).
  { split; [|by intros [? _]]. intros H.
    pose proof (lstrip_shorter s1) as L. rewrite H in L. simpl in L. lia. }
  destruct s1 as [|b s2]; [done|]. destruct (space2 a b).
  { split; [|by intros [_ [? _]]]. intros H.
    pose proof (lstrip_shorter s2) as L. rewrite H in L. simpl in L. lia. }
  destruct s2 as [|c s3]; [done|]. destruct (space3 a b c); [|done].
  split; [|by intros (_ & _ & ?)]. intros H.
  pose proof (lstrip_shorter s3) as L. rewrite H in L. simpl in L. lia.
Qed.

Lemma lstrip_idem s : lstrip (lstrip s) = lstrip s.
Proof.
  remember (String.length s) as n eqn:Hn.
  revert s Hn. induction n as [n IH] using lt_wf_ind. intros s ->.
  destruct s as [|a s1]; [done|]. cbn [lstrip].
  destruct (space1 a) eqn:E1.
  { exact (IH (String.length s1) ltac:(simpl; lia) s1 eq_refl). }
  destruct s1 as [|b s2]; [by cbn [lstrip]; rewrite E1|]. destruct (space2 a b) eqn:E2.
  { exact (IH (String.length s2) ltac:(simpl; lia) s2 eq_refl). }
  destruct s2 as [|c s3]; [by cbn [lstrip]; rewrite E1, E2|].
  destruct (space3 a b c) eqn:E3; [|by cbn [lstrip]; rewrite E1, E2, E3].
  exact (IH (String.length s3) ltac:(simpl; lia) s3 eq_refl).
Qed.

(** A prefix of a string that [lstrip] leaves alone is left alone too. *)
Lemma lstrip_fixed_prefix p q : lstrip (p +:+ q) = p +:+ q -> lstrip p = p.
Proof.
  rewrite !lstrip_fixed_cases.
  destruct p as [|a [|b [|c p]]]; try done; rewrite ?app_cons.
  - by intros [? _].
  - by intros (? & ? & _).
Qed.

(** Leading whitespace is skipped into whatever follows. *)
Lemma lstrip_blank_app x y : lstrip x = EmptyString -> lstrip (x +:+ y) = lstrip y.
Proof.
  remember (String.length x) as n eqn:Hn.
  revert x Hn. induction n as [n IH] using lt_wf_ind. intros x ->.
  destruct x as [|a x1]; [done|]. rewrite app_cons. cbn [lstrip].
  destruct (space1 a).
  { apply (IH (String.length x1)); [simpl; lia | done]. }
  destruct x1 as [|b x2]; [done|]. rewrite app_cons. destruct (space2 a b).
  { apply (IH (String.length x2)); [simpl; lia | done]. }
  destruct x2 as [|c x3]; [done|]. rewrite app_cons.
  destruct (space3 a b c); [|done].
  apply (IH (String.length x3)); [simpl; lia | done].
Qed.

Lemma rstrip_idem s : rstrip (rstrip s) = rstrip s.
Proof.
  induction s as [|a s IH]; [done|]. cbn [rstrip].
  destruct (lstrip (String a s)) eqn:E; [done|].
  cbn [rstrip]. rewrite IH.
  destruct (lstrip (String a (rstrip s))) eqn:E'; [|done].
  destruct (rstrip_split s) as (post & Hs & Hpost).
  rewrite Hs, <- app_cons, (lstrip_blank_app _ _ E'), Hpost in E. done.
Qed.

Lemma strip_idem s : strip (strip s) = strip s.
Proof.
  unfold strip.
  destruct (rstrip_split (lstrip s)) as (post & Hs & _).
  assert (lstrip (rstrip (lstrip s)) = rstrip (lstrip s)) as ->.
  { apply (lstrip_fixed_prefix _ post). rewrite <- Hs. apply lstrip_idem. }
  apply rstrip_idem.
Qed.

End StripMore.

(** ** More on the uploader *)
Section UploaderMore.
Import Py Uploader Spec Conduct Samples.

Variable shell : string -> gmap string string -> filesystem -> completed.
Variable release_label : string.

Ltac run :=
  unfold mbind, mret, M_bind, M_ret, bind, ret, os_environ_get,
    os_environ_set, modify, get, raise;
  cbn [fst snd environ files stdin journal negb].

(** *** The offer to save *)

Lemma offer_cases p w :
  match stdin w with
  | [] => offer_to_save p w = (Raise EOFError, log (Prompted p) w)
  | answer :: rest =>
      if String.eqb (lower (strip answer)) "y"
      then match rest with
           | [] => offer_to_save p w
                   = (Raise EOFError, log (Prompted AskEnter) (prompted p rest w))
           | _ :: rest' =>
               offer_to_save p w
               = (Return tt, prompted AskEnter rest' (prompted p rest w))
           end
      else offer_to_save p w = (Return tt, prompted p rest w)
  end.
Proof.
  unfold offer_to_save, input. run.
  destruct (stdin w) as [|answer rest]; [done|]. cbn [stdin].
  destruct (String.eqb _ _); [|done]. by destruct rest.
Qed.

Lemma only_asked_refl k w : only_asked k w w.
Proof.
  split; [done|]. split; [done|]. exists []. split; [by rewrite app_nil_r|].
  by exists [].
Qed.

Lemma only_asked_trans k a b c :
  only_asked k a b -> only_asked k b c -> only_asked k a c.
Proof.
  intros (F1 & E1 & p1 & J1 & u1 & S1 & L1) (F2 & E2 & p2 & J2 & u2 & S2 & L2).
  split; [congruence|]. split; [intros k' Hk; by rewrite E2, E1|].
  exists (p1 ++ p2). split; [by rewrite J2, J1, map_app, app_assoc|].
  exists (u1 ++ u2). split; [by rewrite S1, S2, app_assoc|].
  rewrite !length_app. lia.
Qed.

Lemma only_asked_input k p : framed (only_asked k) (input p).
Proof.
  intros w. unfold input, log. destruct (stdin w) as [|line rest] eqn:E;
    (split; [done|]); (split; [done|]); exists [p]; (split; [done|]).
  - exists []. cbn. rewrite E. split; [done|lia].
  - exists [line]. cbn. by split.
Qed.

Lemma only_asked_set k v : framed (only_asked k) (os_environ_set k v).
Proof.
  intros w. unfold os_environ_set.
  destruct (has_nul v); [apply only_asked_refl|].
  split; [done|]. split.
  - intros k' Hk. cbn. by rewrite lookup_insert_ne.
  - exists []. split; [cbn; by rewrite app_nil_r|]. by exists [].
Qed.

Ltac frame_with R_refl R_trans leaves :=
  repeat first
    [ apply (framed_ret _ R_refl)
    | apply (framed_raise _ R_refl)
    | apply (framed_get _ R_refl)
    | apply (framed_environ_get _ R_refl)
    | apply (framed_getsize _ R_refl)
    | apply (framed_getmtime _ R_refl)
    | leaves
    | progress cbv beta zeta
    | lazymatch goal with
      | |- framed _ (mbind _ _) => apply (framed_bind _ R_trans); [|intros ?]
      | |- framed _ (if ?b then _ else _) => destruct b
      end ].

Ltac frame_asked leaves :=
  frame_with uconstr:(only_asked_refl _) uconstr:(only_asked_trans _)
    ltac:(first [ apply only_asked_input | apply only_asked_set | leaves ]).

Lemma only_asked_offer k p : framed (only_asked k) (offer_to_save p).
Proof. unfold offer_to_save. frame_asked fail. Qed.

Lemma only_asked_token : framed (only_asked GITHUB_TOKEN) ensure_github_token.
Proof. unfold ensure_github_token. frame_asked ltac:(apply only_asked_offer). Qed.

Lemma only_asked_repo : framed (only_asked GITHUB_REPO) ensure_github_repo.
Proof. unfold ensure_github_repo. frame_asked ltac:(apply only_asked_offer). Qed.

(** *** Counting prompts and lines *)

Lemma prompts_app a b : prompts (a ++ b) = prompts a ++ prompts b.
Proof. induction a as [|[] a IH]; cbn; by rewrite ?IH. Qed.

Lemma asked_within_refl n w : asked_within n w w.
Proof. exists []. split; [by rewrite app_nil_r | cbn; lia]. Qed.

Lemma asked_within_after n m a b c :
  asked_within n a b -> asked_within m b c -> asked_within (n + m) a c.
Proof.
  intros (p1 & J1 & L1) (p2 & J2 & L2). exists (p1 ++ p2).
  split; [by rewrite J2, J1, map_app, app_assoc|]. rewrite length_app. lia.
Qed.

Lemma asked_within_more n m w w' :
  (n <= m)%nat -> asked_within n w w' -> asked_within m w w'.
Proof. intros Hnm (ps & J & L). exists ps. split; [done|lia]. Qed.

Lemma offer_within p w :
  asked_within 2 w (snd (offer_to_save p w))
  /\ read_within 2 w (snd (offer_to_save p w))
  /\ fst (offer_to_save p w) <> Raise ValueError.
Proof.
  pose proof (offer_cases p w) as H. unfold read_within.
  destruct (stdin w) as [|answer rest] eqn:E.
  { rewrite H. cbn [fst snd log stdin]. rewrite E.
    split; [by exists [p]; split; [|cbn; lia]|]. split; [lia|done]. }
  destruct (String.eqb _ _).
  - destruct rest as [|b rest'];
      rewrite H; cbn [fst snd log prompted stdin journal];
      (split; [exists [p; AskEnter]; cbn [journal log prompted map];
               split; [by rewrite <- app_assoc | cbn; lia]|]);
      (split; [cbn; lia | done]).
  - rewrite H. cbn [fst snd prompted stdin].
    split; [by exists [p]; split; [|cbn; lia]|]. split; [cbn; lia|done].
Qed.

(** *** The two [ensure_] functions, whatever the world *)

Lemma token_eof w :
  truthy (environ w !! GITHUB_TOKEN) = false -> stdin w = [] ->
  ensure_github_token w = (Raise EOFError, log (Prompted AskToken) w).
Proof.
  intros H Hin. unfold ensure_github_token. run. rewrite H. cbn [negb].
  by rewrite (input_eof _ _ Hin).
Qed.

(** Once a value read at prompt [q] is stored under [k], what is left
    is the offer to save. *)
Lemma accepted_parts p q k v w line rest :
  stdin w = line :: rest ->
  let r := (offer_to_save p ≫= λ _, mret true)
             (with_env k v (prompted q rest w)) in
  asked_within 3 w (snd r) /\ read_within 3 w (snd r)
  /\ environ (snd r) = <[k := v]> (environ w)
  /\ fst r <> Return false /\ fst r <> Raise ValueError.
Proof.
  intros Hin. cbv zeta. rewrite then_true_fst, then_true_snd, offer_environ.
  destruct (offer_within p (with_env k v (prompted q rest w))) as (Ha & Hr & Hv).
  split; [|split; [|split; [done|]]].
  - apply (asked_within_after 1 2 w (with_env k v (prompted q rest w))); [|done].
    by exists [q].
  - unfold read_within in *. rewrite Hin. cbn in *. lia.
  - destruct (fst (offer_to_save p _)); [by split|]. split; [done|]. congruence.
Qed.

Lemma token_parts (w : world) :
  asked_within 3 w (snd (ensure_github_token w))
  /\ read_within 3 w (snd (ensure_github_token w))
  /\ (fst (ensure_github_token w) = Return true ->
      truthy (environ (snd (ensure_github_token w)) !! GITHUB_TOKEN) = true)
  /\ (fst (ensure_github_token w) = Return false ->
      environ (snd (ensure_github_token w)) = environ w
      /\ exists line rest,
          stdin w = line :: rest /\ stdin (snd (ensure_github_token w)) = rest)
  /\ (fst (ensure_github_token w) = Raise ValueError ->
      environ (snd (ensure_github_token w)) = environ w).
Proof.
  unfold read_within.
  destruct (truthy (environ w !! GITHUB_TOKEN)) eqn:T.
  { rewrite (token_set _ T). cbn [fst snd].
    split; [apply asked_within_refl|]. split; [lia|]. by repeat split. }
  destruct (stdin w) as [|line rest] eqn:Hin.
  { rewrite (token_eof _ T Hin). cbn [fst snd log stdin].
    split; [by exists [AskToken]; split; [|cbn; lia]|]. rewrite Hin.
    split; [lia|]. by repeat split. }
  rewrite (token_asked _ _ _ T Hin). destruct (nonempty (strip line)) eqn:N.
  - destruct (has_nul (strip line)).
    { cbn [fst snd prompted stdin environ].
      split; [by exists [AskToken]; split; [|cbn; lia]|].
      split; [cbn; lia|]. by repeat split. }
    destruct (accepted_parts AskSaveToken AskToken GITHUB_TOKEN (strip line)
                w line rest Hin) as (Ha & Hr & He & Hf & Hv).
    split; [exact Ha|]. split; [by rewrite <- Hin|].
    split; [|by split].
    intros _. rewrite He, lookup_insert_eq. exact N.
  - cbn [fst snd prompted stdin environ].
    split; [by exists [AskToken]; split; [|cbn; lia]|].
    split; [cbn; lia|]. split; [done|]. split; [|done].
    intros _. split; [done|]. by exists line, rest.
Qed.

(** X9: whatever the world, [ensure_github_token] only asks: it
    changes no file, starts no command and writes no variable but
    GITHUB_TOKEN; it shows at most three prompts and reads at most
    three lines.  When it returns [True] GITHUB_TOKEN is set and not
    empty; when it returns [False] the environment is untouched and one
    line was read; when it stops with [ValueError] the environment is
    untouched. *)
Theorem token_is_ensured (w : world) :
  ensured GITHUB_TOKEN w (fst (ensure_github_token w)) (snd (ensure_github_token w)).
Proof.
  unfold ensured. split.
  - apply only_asked_token.
  - apply token_parts.
Qed.

Lemma repo_is_ensured_asked (w : world) :
  repo_unsettled w ->
  asked_within 3 w (snd (ensure_github_repo w))
  /\ read_within 3 w (snd (ensure_github_repo w))
  /\ (fst (ensure_github_repo w) = Return true ->
      truthy (environ (snd (ensure_github_repo w)) !! GITHUB_REPO) = true)
  /\ (fst (ensure_github_repo w) = Return false ->
      environ (snd (ensure_github_repo w)) = environ w
      /\ exists line rest,
          stdin w = line :: rest /\ stdin (snd (ensure_github_repo w)) = rest)
  /\ (fst (ensure_github_repo w) = Raise ValueError ->
      environ (snd (ensure_github_repo w)) = environ w).
Proof.
  intros U. unfold read_within. destruct (stdin w) as [|line rest] eqn:Hin.
  { rewrite (repo_eof _ U Hin). cbn [fst snd log stdin].
    split; [by exists [AskRepo]; split; [|cbn; lia]|]. rewrite Hin.
    split; [lia|]. by repeat split. }
  rewrite (repo_asked _ _ _ U Hin).
  destruct (nonempty (strip line) && contains "/" (strip line)) eqn:N.
  - destruct (has_nul (strip line)).
    { cbn [fst snd prompted stdin environ].
      split; [by exists [AskRepo]; split; [|cbn; lia]|].
      split; [cbn; lia|]. by repeat split. }
    destruct (accepted_parts AskSaveRepo AskRepo GITHUB_REPO (strip line)
                w line rest Hin) as (Ha & Hr & He & Hf & Hv).
    split; [exact Ha|]. split; [by rewrite <- Hin|].
    split; [|by split].
    intros _. rewrite He, lookup_insert_eq. by apply andb_true_iff in N as [? _].
  - cbn [fst snd prompted stdin environ].
    split; [by exists [AskRepo]; split; [|cbn; lia]|].
    split; [cbn; lia|]. split; [done|]. split; [|done].
    intros _. split; [done|]. by exists line, rest.
Qed.

Lemma repo_parts (w : world) :
  asked_within 3 w (snd (ensure_github_repo w))
  /\ read_within 3 w (snd (ensure_github_repo w))
  /\ (fst (ensure_github_repo w) = Return true ->
      truthy (environ (snd (ensure_github_repo w)) !! GITHUB_REPO) = true)
  /\ (fst (ensure_github_repo w) = Return false ->
      environ (snd (ensure_github_repo w)) = environ w
      /\ exists line rest,
          stdin w = line :: rest /\ stdin (snd (ensure_github_repo w)) = rest)
  /\ (fst (ensure_github_repo w) = Raise ValueError ->
      environ (snd (ensure_github_repo w)) = environ w).
Proof.
  destruct (truthy (environ w !! GITHUB_REPO)) eqn:T;
    [|by apply repo_is_ensured_asked; left].
  destruct (decide (environ w !! GITHUB_REPO = Some PLACEHOLDER_REPO)) as [P|P];
    [by apply repo_is_ensured_asked; right|].
  rewrite repo_set; [|intros [?|?]; congruence]. cbn [fst snd].
  split; [apply asked_within_refl|]. split; [unfold read_within; lia|].
  by repeat split.
Qed.

(** X10: the same for [ensure_github_repo] and GITHUB_REPO. *)
Theorem repo_is_ensured (w : world) :
  ensured GITHUB_REPO w (fst (ensure_github_repo w)) (snd (ensure_github_repo w)).
Proof.
  unfold ensured. split.
  - apply only_asked_repo.
  - apply repo_parts.
Qed.

(** X11: what the two functions write.  Each leaves the environment
    as it was or sets its own variable, and then to a value that is
    not empty and that stripping leaves unchanged (for the repository,
    one that contains "/"); a token that was set and not empty is
    never overwritten. *)
Theorem written_values_are_clean (w : world) :
  (environ (snd (ensure_github_token w)) = environ w
   \/ exists v, environ (snd (ensure_github_token w))
                = <[GITHUB_TOKEN := v]> (environ w)
        /\ nonempty v = true /\ strip v = v
        /\ truthy (environ w !! GITHUB_TOKEN) = false)
  /\ (environ (snd (ensure_github_repo w)) = environ w
      \/ exists v, environ (snd (ensure_github_repo w))
                   = <[GITHUB_REPO := v]> (environ w)
           /\ nonempty v = true /\ strip v = v /\ contains "/" v = true
           /\ repo_unsettled w).
Proof.
  split.
  - destruct (truthy (environ w !! GITHUB_TOKEN)) eqn:T.
    { left. by rewrite (token_set _ T). }
    destruct (stdin w) as [|line rest] eqn:Hin.
    { left. by rewrite (token_eof _ T Hin). }
    rewrite (token_asked _ _ _ T Hin). destruct (nonempty (strip line)) eqn:N.
    + destruct (has_nul (strip line)); [by left|].
      right. exists (strip line). rewrite then_true_snd, offer_environ.
      split; [done|]. split; [done|]. split; [apply strip_idem|done].
    + by left.
  - destruct (decide (repo_unsettled w)) as [U|U].
    2:{ left. by rewrite (repo_set _ U). }
    destruct (stdin w) as [|line rest] eqn:Hin.
    { left. by rewrite (repo_eof _ U Hin). }
    rewrite (repo_asked _ _ _ U Hin).
    destruct (nonempty (strip line) && contains "/" (strip line)) eqn:N.
    + destruct (has_nul (strip line)); [by left|].
      right. exists (strip line). rewrite then_true_snd, offer_environ.
      apply andb_true_iff in N as [N1 N2].
      split; [done|]. split; [done|]. split; [apply strip_idem|done].
    + by left.
Qed.

(** X12: asking again is not needed.  Once [ensure_github_token] has
    returned [True], a second call returns [True] at once and changes
    nothing; the same holds for [ensure_github_repo] unless the value
    in place is the placeholder. *)
Theorem ensured_stays_ensured (w : world) :
  (fst (ensure_github_token w) = Return true ->
   ensure_github_token (snd (ensure_github_token w))
   = (Return true, snd (ensure_github_token w)))
  /\ (fst (ensure_github_repo w) = Return true ->
      environ (snd (ensure_github_repo w)) !! GITHUB_REPO <> Some PLACEHOLDER_REPO ->
      ensure_github_repo (snd (ensure_github_repo w))
      = (Return true, snd (ensure_github_repo w))).
Proof.
  split.
  - intros H. apply token_set.
    destruct (token_parts w) as (_ & _ & Ht & _). by apply Ht.
  - intros H P. apply repo_set. intros [U|U]; [|done].
    destruct (repo_parts w) as (_ & _ & Ht & _). rewrite (Ht H) in U. done.
Qed.

(** *** [create_apk], whatever the world *)

Lemma commands_app a b : commands (a ++ b) = commands a ++ commands b.
Proof. induction a as [|[] a IH]; cbn; by rewrite ?IH. Qed.

Lemma commands_prompted ps : commands (map Prompted ps) = [].
Proof. by induction ps. Qed.

Lemma create_apk_eof w :
  path_exists (files w) apk_path = true -> stdin w = [] ->
  create_apk shell w = (Raise EOFError, log (Prompted AskRebuild) w).
Proof.
  intros Hex Hin. unfold create_apk. run. rewrite Hex.
  destruct (path_exists_file _ _ Hex) as [f Hf].
  unfold getmtime, getsize. rewrite Hf. run.
  by rewrite (input_eof _ _ Hin).
Qed.

(** The three ways [create_apk] can go. *)
Lemma create_apk_cases w :
  (path_exists (files w) apk_path = true /\ stdin w = []
   /\ create_apk shell w = (Raise EOFError, log (Prompted AskRebuild) w))
  \/ (path_exists (files w) apk_path = true
      /\ exists answer rest, stdin w = answer :: rest
          /\ create_apk shell w
             = (Return (Some apk_path), prompted AskRebuild rest w))
  \/ (exists w1, rebuild_start w w1
       /\ create_apk shell w
          = (Return (if build_signal (shell BUILD_COMMAND (environ w1) (files w1))
                     then Some apk_path else None),
             ran BUILD_COMMAND (shell BUILD_COMMAND (environ w1) (files w1)) w1)).
Proof.
  destruct (path_exists (files w) apk_path) eqn:Hex.
  2:{ right. right. exists w. split; [by left|].
      apply create_apk_builds. by left. }
  destruct (stdin w) as [|answer rest] eqn:Hin.
  { left. split; [done|]. split; [done|]. by apply create_apk_eof. }
  destruct (String.eqb_spec (lower (strip answer)) "y") as [Hy|Hn].
  - right. right. exists (prompted AskRebuild rest w).
    assert (rebuild_start w (prompted AskRebuild rest w)) as Hstart.
    { right. split; [done|]. by exists answer, rest. }
    split; [exact Hstart|]. by apply create_apk_builds.
  - right. left. split; [done|]. exists answer, rest. split; [done|].
    by apply (create_apk_keeps shell w answer rest).
Qed.

(** X13: whatever the world, [create_apk] leaves the environment
    alone and shows at most one prompt.  A path it returns is the
    artifact path, and the artifact exists at that moment.  It starts
    at most one command, the build command; if it starts none the
    files are as before; and with no artifact in place it builds at
    once, without a prompt. *)
Theorem create_apk_conduct (w : world) :
  let o := fst (create_apk shell w) in
  let w' := snd (create_apk shell w) in
  exists evs, journal w' = journal w ++ evs
    /\ environ w' = environ w
    /\ (length (prompts evs) <= 1)%nat
    /\ (forall p, o = Return (Some p) ->
         p = apk_path /\ path_exists (files w') apk_path = true)
    /\ (commands evs = [] /\ files w' = files w
        \/ commands evs = [BUILD_COMMAND])
    /\ (path_exists (files w) apk_path = false ->
        evs = [Ran BUILD_COMMAND (environ w)]).
Proof.
  cbv zeta.
  destruct (create_apk_cases w)
    as [(Hex & Hin & ->) | [(Hex & a & rest & Hin & ->) | (w1 & Hstart & ->)]];
    cbn [fst snd].
  - exists [Prompted AskRebuild]. split; [done|]. split; [done|].
    split; [cbn; lia|]. split; [done|].
    split; [by left|]. by rewrite Hex.
  - exists [Prompted AskRebuild]. split; [done|]. split; [done|].
    split; [cbn; lia|].
    split; [by intros p [= <-]|]. split; [by left|]. by rewrite Hex.
  - set (r := shell BUILD_COMMAND (environ w1) (files w1)).
    assert (forall p, Return (if build_signal r then Some apk_path else None)
                      = Return (Some p) ->
                      p = apk_path /\ path_exists (files_after r) apk_path = true)
      as Hsome.
    { intros p. unfold build_signal.
      destruct (path_exists (files_after r) apk_path);
        [|by rewrite andb_false_r]. destruct (_ && _); [|done].
      by intros [= <-]. }
    destruct Hstart as [[Hno ->] | (Hex & a & rest & Hin & Hy & ->)].
    + exists [Ran BUILD_COMMAND (environ w)]. split; [done|]. split; [done|].
      split; [cbn; lia|]. split; [exact Hsome|].
      split; [by right|done].
    + exists [Prompted AskRebuild; Ran BUILD_COMMAND (environ w)].
      split; [cbn; by rewrite <- app_assoc|]. split; [done|].
      split; [cbn; lia|].
      split; [exact Hsome|]. split; [by right|]. by rewrite Hex.
Qed.

(** *** [upload_to_github], whatever the world *)

Lemma upload_steps path w :
  upload_to_github shell release_label path w
  = if path_exists (files w) path then
      match ensure_github_token w with
      | (Return true, wa) =>
          match ensure_github_repo wa with
          | (Return true, wb) =>
              if has_nul release_label then (Raise ValueError, wb)
              else
                let w1 := with_env RELEASE_VERSION release_label wb in
                let r := shell (upload_command path) (environ w1) (files w1) in
                (Return (upload_signal r), ran (upload_command path) r w1)
          | (Return false, wb) => (Return false, wb)
          | (Raise e, wb) => (Raise e, wb)
          end
      | (Return false, wa) => (Return false, wa)
      | (Raise e, wa) => (Raise e, wa)
      end
    else (Return false, w).
Proof.
  destruct (path_exists (files w) path) eqn:Hex.
  2:{ unfold upload_to_github. run. by rewrite Hex. }
  destruct (ensure_github_token w) as [[[]|e] wa] eqn:Ht.
  - destruct (ensure_github_repo wa) as [[[]|e] wb] eqn:Hr.
    + destruct (has_nul release_label) eqn:Hz.
      * pose proof (same_files_token w) as Fa. rewrite Ht in Fa.
        pose proof (same_files_repo wa) as Fb. rewrite Hr in Fb.
        unfold same_files in Fa, Fb. cbn [snd] in Fa, Fb.
        destruct (path_exists_file _ _ Hex) as [f Hf].
        unfold upload_to_github. run. rewrite Hex. cbn [negb].
        rewrite Ht, Hr. cbn [negb orb]. unfold getsize. rewrite Fb, Fa, Hf.
        run. by rewrite Hz.
      * apply upload_runs. split; [done|]. exists wa, wb.
        split; [done|]. split; [done|]. by apply environ_set_stored.
    + unfold upload_to_github. run. rewrite Hex. cbn [negb].
      rewrite Ht. by rewrite Hr.
    + unfold upload_to_github. run. rewrite Hex. cbn [negb].
      rewrite Ht. by rewrite Hr.
  - unfold upload_to_github. run. rewrite Hex. cbn [negb]. by rewrite Ht.
  - unfold upload_to_github. run. rewrite Hex. cbn [negb]. by rewrite Ht.
Qed.

Lemma prompts_prompted ps : prompts (map Prompted ps) = ps.
Proof. induction ps as [|q ps IH]; cbn; by rewrite ?IH. Qed.

Lemma upload_parts (path : string) (w : world) :
  let o := fst (upload_to_github shell release_label path w) in
  let w' := snd (upload_to_github shell release_label path w) in
  exists evs, journal w' = journal w ++ evs
    /\ (length (prompts evs) <= 6)%nat
    /\ ((commands evs = [] /\ o <> Return true /\ files w' = files w)
        \/ (exists ps env,
              evs = map Prompted ps ++ [Ran (upload_command path) env]
              /\ truthy (env !! GITHUB_TOKEN) = true
              /\ truthy (env !! GITHUB_REPO) = true
              /\ env !! RELEASE_VERSION = Some release_label
              /\ path_exists (files w) path = true)).
Proof.
  cbv zeta. rewrite upload_steps.
  destruct (path_exists (files w) path) eqn:Hex.
  2:{ exists []. cbn [fst snd]. split; [by rewrite app_nil_r|].
      split; [cbn; lia|]. by left. }
  pose proof (token_parts w) as ((ps1 & TJ & TL) & _ & Tt & _).
  pose proof (only_asked_token w) as (TF & TE & _).
  destruct (ensure_github_token w) as [[[]|e] wa] eqn:Ht; cbn [fst snd] in *.
  - pose proof (repo_parts wa) as ((ps2 & RJ & RL) & _ & Rt & _).
    pose proof (only_asked_repo wa) as (RF & RE & _).
    assert (length (prompts (map Prompted (ps1 ++ ps2))) <= 6)%nat as L.
    { rewrite prompts_prompted, length_app. lia. }
    destruct (ensure_github_repo wa) as [[[]|e] wb] eqn:Hr; cbn [fst snd] in *.
    + destruct (has_nul release_label) eqn:Hz; cbn [fst snd].
      { exists (map Prompted (ps1 ++ ps2)).
        split; [by rewrite RJ, TJ, map_app, !app_assoc|]. split; [exact L|].
        left. rewrite commands_prompted. split; [done|]. split; [done|].
        congruence. }
      exists (map Prompted (ps1 ++ ps2)
              ++ [Ran (upload_command path)
                    (<[RELEASE_VERSION := release_label]> (environ wb))]).
      split; [cbn; by rewrite RJ, TJ, map_app, !app_assoc|].
      split.
      { rewrite prompts_app, length_app. cbn [prompts length]. lia. }
      right. eexists _, _. split; [done|].
      split; [|split; [|split]]; [| | |done].
      * rewrite lookup_insert_ne by done. rewrite RE by done. by apply Tt.
      * rewrite lookup_insert_ne by done. by apply Rt.
      * by rewrite lookup_insert_eq.
    + exists (map Prompted (ps1 ++ ps2)).
      split; [by rewrite RJ, TJ, map_app, !app_assoc|]. split; [exact L|].
      left. rewrite commands_prompted. split; [done|]. split; [done|]. congruence.
    + exists (map Prompted (ps1 ++ ps2)).
      split; [by rewrite RJ, TJ, map_app, !app_assoc|]. split; [exact L|].
      left. rewrite commands_prompted. split; [done|]. split; [done|]. congruence.
  - exists (map Prompted ps1). split; [done|].
    split; [rewrite prompts_prompted; lia|].
    left. rewrite commands_prompted. by split.
  - exists (map Prompted ps1). split; [done|].
    split; [rewrite prompts_prompted; lia|].
    left. rewrite commands_prompted. by split.
Qed.

(** X14: whatever the world, [upload_to_github] shows at most six
    prompts.  Either it starts no command, does not return [True] and
    leaves the files alone; or, after prompts only, it starts one
    command, the upload of the given path, and that command inherits a
    GITHUB_TOKEN and a GITHUB_REPO that are not empty and the release
    label in RELEASE_VERSION, the file having been found in place. *)
Theorem upload_conduct (path : string) (w : world) :
  let o := fst (upload_to_github shell release_label path w) in
  let w' := snd (upload_to_github shell release_label path w) in
  exists evs, journal w' = journal w ++ evs
    /\ (length (prompts evs) <= 6)%nat
    /\ ((commands evs = [] /\ o <> Return true /\ files w' = files w)
        \/ (exists ps env,
              evs = map Prompted ps ++ [Ran (upload_command path) env]
              /\ truthy (env !! GITHUB_TOKEN) = true
              /\ truthy (env !! GITHUB_REPO) = true
              /\ env !! RELEASE_VERSION = Some release_label
              /\ path_exists (files w) path = true)).
Proof.
  destruct (upload_parts path w) as (evs & J & F & C).
  exists evs. split; [exact J|]. split; [exact F|]. exact C.
Qed.

(** X15: [upload_to_github] gives up early.  With the file missing it
    returns [False] at once: nothing is asked and nothing changes.
    With the file there, no token set and a blank line typed as token,
    it returns [False] right after the token prompt: the repository is
    not asked for and no command is started. *)
Theorem upload_gives_up_early (path : string) (w : world) :
  (path_exists (files w) path = false ->
   upload_to_github shell release_label path w = (Return false, w))
  /\ (forall line rest,
        path_exists (files w) path = true ->
        truthy (environ w !! GITHUB_TOKEN) = false ->
        stdin w = line :: rest ->
        nonempty (strip line) = false ->
        upload_to_github shell release_label path w
        = (Return false, prompted AskToken rest w)).
Proof.
  split.
  - intros Hex. by rewrite upload_steps, Hex.
  - intros line rest Hex T Hin N.
    by rewrite upload_steps, Hex, (token_asked _ _ _ T Hin), N.
Qed.

(** *** [main], whatever the world *)

Lemma then_tt_fst {A} (c : M world A) w :
  fst ((c ≫= λ _, mret tt) w)
  = match fst (c w) with Return _ => Return tt | Raise e => Raise e end.
Proof. run. by destruct (c w) as [[?|?] ?]. Qed.

Lemma then_tt_snd {A} (c : M world A) w :
  snd ((c ≫= λ _, mret tt) w) = snd (c w).
Proof. run. by destruct (c w) as [[?|?] ?]. Qed.

Lemma main_steps w :
  main shell release_label w
  = match create_apk shell w with
    | (Return path, w1) =>
        if truthy path
        then (upload_to_github shell release_label (the path) ≫= λ _, mret tt) w1
        else (Return tt, w1)
    | (Raise e, w1) => (Raise e, w1)
    end.
Proof.
  unfold main. unfold mbind at 1, M_bind at 1, bind at 1.
  destruct (create_apk shell w) as [[path|e] w1]; [|done].
  destruct (truthy path); [|done]. cbn [negb].
  unfold mbind, M_bind, bind.
  by destruct (upload_to_github _ _ _ _) as [[[]|e] w2].
Qed.

(** What [main] adds once [create_apk] has handed it the artifact
    path in world [w1], reached from [w] with the events [evs1], one
    prompt at most among them. *)
Lemma main_uploads w w1 evs1 :
  journal w1 = journal w ++ evs1 ->
  (length (prompts evs1) <= 1)%nat ->
  let r := (upload_to_github shell release_label apk_path ≫= λ _, mret tt) w1 in
  exists evs, journal (snd r) = journal w ++ evs
    /\ (length (prompts evs) <= 7)%nat
    /\ (commands evs = commands evs1
        \/ commands evs = commands evs1 ++ [upload_command apk_path]).
Proof.
  intros J1 L1. cbv zeta. rewrite then_tt_snd.
  destruct (upload_parts apk_path w1) as (evs2 & J2 & F2 & C2).
  exists (evs1 ++ evs2). split; [by rewrite J2, J1, app_assoc|]. split.
  - rewrite prompts_app, length_app. lia.
  - rewrite commands_app. destruct C2 as [(-> & _) | (ps & env & -> & _)].
    + left. by rewrite app_nil_r.
    + right. by rewrite commands_app, commands_prompted.
Qed.

(** X16: whatever the world, [main] shows at most seven prompts.  It
    starts at most the build command and then the upload of the
    artifact path, in that order, each at most once; and when
    [create_apk] returns [None] it stops there: no prompt, no upload. *)
Theorem main_conduct (w : world) :
  let o := fst (main shell release_label w) in
  let w' := snd (main shell release_label w) in
  (exists evs, journal w' = journal w ++ evs
     /\ (length (prompts evs) <= 7)%nat
     /\ (commands evs = [] \/ commands evs = [BUILD_COMMAND]
         \/ commands evs = [upload_command apk_path]
         \/ commands evs = [BUILD_COMMAND; upload_command apk_path]))
  /\ (fst (create_apk shell w) = Return None ->
      main shell release_label w = (Return tt, snd (create_apk shell w))).
Proof.
  cbv zeta. rewrite main_steps. split.
  2:{ destruct (create_apk shell w) as [[[p|]|e] w1]; try done. }
  destruct (create_apk_cases w)
    as [(Hex & Hin & ->) | [(Hex & a & rest & Hin & ->) | (w1 & Hstart & ->)]].
  - exists [Prompted AskRebuild]. cbn [fst snd]. split; [done|].
    split; [cbn; lia|]. by left.
  - change (truthy (Some apk_path)) with true. cbv iota.
    change (the (Some apk_path)) with apk_path.
    destruct (main_uploads w (prompted AskRebuild rest w) [Prompted AskRebuild])
      as (evs & J & F & C); [done | cbn; lia |].
    exists evs. split; [exact J|]. split; [exact F|].
    destruct C as [-> | ->]; [by left | by right; right; left].
  - set (r := shell BUILD_COMMAND (environ w1) (files w1)).
    assert (exists evs1, journal (ran BUILD_COMMAND r w1) = journal w ++ evs1
              /\ commands evs1 = [BUILD_COMMAND]
              /\ (length (prompts evs1) <= 1)%nat)
      as (evs1 & J1 & C1 & L1).
    { destruct Hstart as [[_ ->] | (_ & a & rest & Hin & _ & ->)].
      - exists [Ran BUILD_COMMAND (environ w)]. split; [done|]. split; [done|].
        cbn. lia.
      - exists [Prompted AskRebuild; Ran BUILD_COMMAND (environ w)].
        split; [cbn; by rewrite <- app_assoc|]. split; [done|].
        cbn. lia. }
    destruct (build_signal r).
    + change (truthy (Some apk_path)) with true. cbv iota.
      change (the (Some apk_path)) with apk_path.
      destruct (main_uploads w (ran BUILD_COMMAND r w1) evs1 J1 L1)
        as (evs & J & F & C).
      exists evs. split; [exact J|]. split; [exact F|]. rewrite C1 in C.
      destruct C as [-> | ->]; [by right; left | by right; right; right].
    + cbn [truthy fst snd]. exists evs1. split; [exact J1|].
      split; [lia|]. right. by left.
Qed.

End UploaderMore.

(** ** The header printed before each stage *)
Section ConsoleFacts.
Import Py Console.

Lemma app_empty (s : string) : s +:+ EmptyString = s.
Proof. induction s as [|c s IH]; [done|]. by rewrite app_cons, IH. Qed.

Lemma len_app a b : len (a +:+ b) = (len a + len b)%nat.
Proof.
  induction a as [|c a IH]; [done|]. rewrite app_cons. cbn [len].
  rewrite IH. lia.
Qed.

Lemma len_times c n : continuation c = false -> len (times c n) = n.
Proof. intros H. induction n as [|n IH]; [done|]. cbn [times len]. rewrite H, IH. lia. Qed.

Example len_counts_characters :
  len "APK" = 3%nat /\ len "ساخت فایل APK" = 13%nat
  /\ String.length "ساخت فایل APK" = 21%nat.
Proof. repeat split. Qed.

Lemma center_margins s width :
  exists l r,
    center s width = times " " l +:+ s +:+ times " " r
    /\ (l + r = width - len s)%nat
    /\ (l <= r + 1 /\ r <= l + 1)%nat
    /\ (Nat.even width = true -> l <= r)%nat.
Proof.
  unfold center. destruct (Nat.leb_spec width (len s)) as [Hle|Hlt].
  { exists 0%nat, 0%nat. cbn [times]. rewrite app_nil.
    split; [by rewrite app_empty|].
    split; [lia|]. split; lia. }
  set (marg := (width - len s)%nat).
  pose proof (Nat.div_mod_eq marg 2) as Hdm.
  pose proof (Nat.mod_upper_bound marg 2 ltac:(lia)) as Hm.
  assert (Nat.odd marg = true -> marg mod 2 = 1)%nat as Hodd.
  { intros H. rewrite <- Nat.bit0_mod. unfold Nat.testbit. by rewrite H. }
  assert (Nat.odd marg = false -> marg mod 2 = 0)%nat as Heven.
  { intros H. rewrite <- Nat.bit0_mod. unfold Nat.testbit. by rewrite H. }
  eexists _, _. split; [reflexivity|].
  destruct (Nat.odd marg) eqn:Om; cbn [andb].
  - specialize (Hodd eq_refl). destruct (Nat.odd width) eqn:Ow.
    + split; [lia|]. split; [lia|].
      rewrite <- Nat.negb_odd, Ow. done.
    + split; [lia|]. split; lia.
  - specialize (Heven eq_refl). split; [lia|]. split; lia.
Qed.

(** X17: [print_header] prints three lines: a rule of 60 "=" after a
    blank line, the title, and a rule of 60 "=" before a blank line.
    The title is never cut: it stands between margins of spaces that
    fill the line to 60 characters when it is shorter, the left margin
    equal to the right one or one space less. *)
Theorem print_header_centres (title : string) :
  exists l r,
    print_header title
    = [ LF +:+ times "=" 60;
        times " " l +:+ title +:+ times " " r;
        times "=" 60 +:+ LF ]
    /\ len (times "=" 60) = 60%nat
    /\ (l + r = 60 - len title)%nat
    /\ (l <= r <= l + 1)%nat
    /\ len (times " " l +:+ title +:+ times " " r) = Nat.max 60 (len title).
Proof.
  destruct (center_margins title 60) as (l & r & Hc & Hsum & [_ Hr] & Hl).
  specialize (Hl eq_refl).
  exists l, r. unfold print_header. cbv zeta. rewrite Hc.
  split; [done|]. split; [by apply len_times|]. split; [done|].
  split; [lia|]. rewrite !len_app, !len_times by done. lia.
Qed.

End ConsoleFacts.

(** ** More runs on the sample worlds *)
Section UploaderMoreRuns.
Import Py Uploader Spec Conduct Samples.

Lemma ensured_stays_ensured_witness :
  ensure_github_token (snd (ensure_github_token (bare ["ghp_1"; "n"])))
  = (Return true, snd (ensure_github_token (bare ["ghp_1"; "n"]))).
Proof.
  apply (proj1 (ensured_stays_ensured (bare ["ghp_1"; "n"]))). reflexivity.
Defined.

(** The placeholder itself can be typed at the prompt and is stored;
    the next call then asks again. *)
Example typed_placeholder_is_asked_again :
  fst (ensure_github_repo (bare ["username/repo"; "n"])) = Return true
  /\ fst (ensure_github_repo (snd (ensure_github_repo (bare ["username/repo"; "n"]))))
     = Raise EOFError.
Proof. split; by vm_compute. Qed.

Lemma create_apk_conduct_witness :
  fst (create_apk (script 0 "built") (bare [])) = Return (Some apk_path)
  /\ path_exists (files (snd (create_apk (script 0 "built") (bare [])))) apk_path
     = true.
Proof.
  destruct (create_apk_conduct (script 0 "built") (bare []))
    as (evs & _ & _ & _ & Hp & _).
  split; [reflexivity|]. by apply (Hp apk_path).
Defined.

Lemma upload_gives_up_early_witness :
  upload_to_github (script 0 "ok") "v1" apk_path (bare ["ghp_1"])
  = (Return false, bare ["ghp_1"])
  /\ upload_to_github (script 0 "ok") "v1" apk_path (built [" "; "ghp_1"])
     = (Return false, prompted AskToken ["ghp_1"] (built [" "; "ghp_1"])).
Proof.
  split.
  - apply (proj1 (upload_gives_up_early (script 0 "ok") "v1" apk_path
                    (bare ["ghp_1"]))). reflexivity.
  - apply (proj2 (upload_gives_up_early (script 0 "ok") "v1" apk_path
                    (built [" "; "ghp_1"])) " " ["ghp_1"]); reflexivity.
Defined.

Lemma main_conduct_witness :
  main (script 1 "failed") "v1" (bare ["ghp_1"])
  = (Return tt, snd (create_apk (script 1 "failed") (bare ["ghp_1"]))).
Proof.
  apply (proj2 (main_conduct (script 1 "failed") "v1" (bare ["ghp_1"]))).
  reflexivity.
Defined.

(** Seven lines can be needed: a rebuild, and a yes to both offers to
    save.  With the seventh line missing the run stops at the last
    prompt. *)
Example main_can_need_seven_lines :
  let lines := ["y"; "ghp_1"; "y"; "go"; "me/app"; "y"; "go"] in
  let marked := script 0 ("ok " +:+ SUCCESS_MARKER) in
  (fst (main marked "v1" (built lines)) = Return tt
   /\ stdin (snd (main marked "v1" (built lines))) = [])
  /\ fst (main marked "v1" (built (take 6 lines))) = Raise EOFError.
Proof. repeat split; by vm_compute. Qed.

End UploaderMoreRuns.
